(** * Proxi policy engine: a shallow embedding of [src/guardrails/policy_engine.py]

    The development models the three classes of the module
    ([PolicyViolationError], [TemporaryPermissionManager], [PolicyEngine])
    together with the [threading.Timer] objects the manager starts, and
    proves properties of the mode state machine and of the validation
    pipeline.

    Conventions.
    - Time is an integer number of microseconds (the resolution of
      [datetime]); every operation receives the reading [now] of the clock.
      Durations handed to the engine are Python [int] seconds.
    - A [threading.Timer] is an object of a heap ([threads]); the manager's
      [timer] field holds a reference (an index) or [None].
    - Each method body runs as one atomic step; the timer thread takes two
      steps (leaving its wait, then running [_expire]), which is where a
      [cancel()] can come too late. *)

From Stdlib Require Import ZArith Bool Lia.
From stdpp Require Import base option list gmap strings.

Local Open Scope string_scope.
Local Open Scope Z_scope.

(** ** Policy document *)

(** An entry of [policy['modes']]. *)
Record Mode := mkMode {
  description : string;
  allowed_tools : list string;
  blocked_tools : list string
}.

(** [policy['global_rules']]. *)
Record GlobalRules := mkGlobalRules {
  always_blocked : list string
}.

(** The parsed JSON document, following the schema of the policy file. *)
Record Policy := mkPolicy {
  policy_name : string;
  version : string;
  modes : gmap string Mode;
  global_rules : GlobalRules
}.

(** ** Exceptions and results *)

(** The three [reason=] strings [validate] builds. *)
Inductive Reason := GloballyBlocked | BlockedInMode | NotWhitelisted.

Definition reason_text (r : Reason) (mode : string) : string :=
  match r with
  | GloballyBlocked => "Globally blocked - destructive operation"
  | BlockedInMode => "Blocked in " +:+ mode +:+ " mode"
  | NotWhitelisted => "Not whitelisted for " +:+ mode +:+ " mode"
  end.

(** [PolicyViolationError]: the attributes set by [__init__]; [temp_status]
    is the remaining time (microseconds) quoted in the message of a
    mode-blocked tool while a temporary permission is valid. *)
Record PolicyViolationError := mkViolation {
  tool_name : string;
  mode : string;
  reason : Reason;
  temp_status : option Z
}.

Inductive Exn :=
| PolicyViolation (e : PolicyViolationError)
| KeyError (key : string)
| ValueError (msg : string)
| TypeError.

(** A call either returns or raises. *)
Inductive Result (A : Type) :=
| Return (a : A)
| Raise (e : Exn).
Arguments Return {A} a.
Arguments Raise {A} e.

(** ** Timers *)

(** Where the thread of a [threading.Timer] stands in [run]:
    [[
      self.finished.wait(self.interval)     -- Waiting
      if not self.finished.is_set():
          self.function()                   -- Committed (then Done)
      self.finished.set()
    ]] *)
Inductive Stage := Waiting | Committed | Done.

Record Timer := mkTimer {
  due : Z;            (* start time + interval, in microseconds *)
  finished : bool;    (* the [finished] event; [cancel()] sets it *)
  stage : Stage
}.

(** [Timer.cancel]. *)
Definition cancel (t : Timer) : Timer :=
  mkTimer (due t) true (stage t).

(** ** TemporaryPermissionManager *)

(** The closures passed as [on_expiry]; both definitions in the source have
    the body [self.current_mode = self.base_mode]. *)
Inductive Callback := RevertToBase.

Record TemporaryPermissionManager := mkManager {
  is_active : bool;
  expiry_time : option Z;
  timer : option nat;
  on_expiry_callback : option Callback
}.

(** [TemporaryPermissionManager.__init__]. *)
Definition manager_init : TemporaryPermissionManager :=
  mkManager false None None None.

Definition seconds (n : Z) : Z := n * 1000000.

(** [grant]: cancel the pending timer, mark active, start a new timer.  This
    is the path on which [now + duration] is a [datetime] ([representable]
    below); when it is not, line 57 raises [OverflowError] and the manager is
    left as [failed_grant_temporary_emergency] describes. *)
Definition grant (now duration_seconds : Z) (on_expiry : option Callback)
    (tp : TemporaryPermissionManager) (threads : list Timer)
    : TemporaryPermissionManager * list Timer :=
  let threads1 :=
    match timer tp with
    | Some i => alter cancel i threads
    | None => threads
    end in
  let expiry := now + seconds duration_seconds in
  (mkManager true (Some expiry) (Some (length threads1)) on_expiry,
   (threads1 ++ [mkTimer expiry false Waiting])%list).

(** [revoke]. *)
Definition revoke (tp : TemporaryPermissionManager) (threads : list Timer)
    : TemporaryPermissionManager * list Timer :=
  let threads1 :=
    match timer tp with
    | Some i => alter cancel i threads
    | None => threads
    end in
  (mkManager false None None (on_expiry_callback tp), threads1).

(** [is_valid]. *)
Definition is_valid (now : Z) (tp : TemporaryPermissionManager) : bool :=
  is_active tp &&
  match expiry_time tp with
  | None => true
  | Some e => now <? e
  end.

(** [remaining_time], in microseconds. *)
Definition remaining_time (now : Z) (tp : TemporaryPermissionManager)
    : option Z :=
  if negb (is_active tp) then None
  else match expiry_time tp with
       | None => None
       | Some e => Some (Z.max 0 (e - now))
       end.

(** ** PolicyEngine *)

Record PolicyEngine := mkEngine {
  policy : Policy;
  current_mode : string;
  base_mode : string;
  temp_permission : TemporaryPermissionManager
}.

(** The engine together with the timer threads it has started. *)
Record World := mkWorld {
  engine : PolicyEngine;
  threads : list Timer
}.

(** [PolicyEngine.__init__], after [_load_policy] returned [p]. *)
Definition init (p : Policy) : World :=
  mkWorld (mkEngine p "NORMAL" "NORMAL" manager_init) [].

Definition run_callback (c : Callback) (e : PolicyEngine) : PolicyEngine :=
  match c with
  | RevertToBase =>
      mkEngine (policy e) (base_mode e) (base_mode e) (temp_permission e)
  end.

(** [TemporaryPermissionManager._expire], seen from the engine that owns the
    manager: the callback writes the engine's [current_mode]. *)
Definition _expire (e : PolicyEngine) : PolicyEngine :=
  let tp := temp_permission e in
  let e1 := mkEngine (policy e) (current_mode e) (base_mode e)
              (mkManager false None None (on_expiry_callback tp)) in
  match on_expiry_callback tp with
  | Some c => run_callback c e1
  | None => e1
  end.

(** [set_mode]. *)
Definition set_mode (now : Z) (m : string) (w : World)
    : Result unit * World :=
  let e := engine w in
  match modes (policy e) !! m with
  | None => (Raise (ValueError ("Invalid mode: " +:+ m)), w)
  | Some _ =>
      let r :=
        if is_valid now (temp_permission e)
        then revoke (temp_permission e) (threads w)
        else (temp_permission e, threads w) in
      (Return (), mkWorld (mkEngine (policy e) m m (fst r)) (snd r))
  end.

(** [grant_temporary_emergency], on the path on which [grant] returns. *)
Definition grant_temporary_emergency (now duration_seconds : Z) (w : World)
    : Result unit * World :=
  let e := engine w in
  let '(tp1, th1) :=
    grant now duration_seconds (Some RevertToBase)
      (temp_permission e) (threads w) in
  (Return (),
   mkWorld (mkEngine (policy e) "EMERGENCY" (current_mode e) tp1) th1).

(** [extend_temporary_emergency], on the path on which [grant] returns;
    [int(remaining + additional_seconds)] truncates the sum of seconds
    toward zero, which the exact quotient renders as long as the float sum
    is exact to the microsecond ([exact_seconds] below). *)
Definition extend_temporary_emergency (now additional_seconds : Z)
    (w : World) : Result unit * World :=
  let e := engine w in
  if negb (is_valid now (temp_permission e)) then (Return (), w)
  else
    let remaining := default 0 (remaining_time now (temp_permission e)) in
    let new_duration :=
      Z.quot (remaining + seconds additional_seconds) 1000000 in
    let '(tp1, th1) :=
      grant now new_duration (Some RevertToBase)
        (temp_permission e) (threads w) in
    (Return (),
     mkWorld (mkEngine (policy e) (current_mode e) (base_mode e) tp1) th1).

(** [revoke_temporary_emergency]. *)
Definition revoke_temporary_emergency (w : World) : Result unit * World :=
  let e := engine w in
  let '(tp1, th1) := revoke (temp_permission e) (threads w) in
  (Return (),
   mkWorld (mkEngine (policy e) (base_mode e) (base_mode e) tp1) th1).

Definition get_current_mode (e : PolicyEngine) : string := current_mode e.

(** The dictionary returned by [get_temporary_status]. *)
Record Status := mkStatus {
  status_is_active : bool;
  status_remaining_seconds : option Z;
  status_base_mode : string;
  status_current_mode : string
}.

Definition get_temporary_status (now : Z) (e : PolicyEngine) : Status :=
  mkStatus (is_valid now (temp_permission e))
           (remaining_time now (temp_permission e))
           (base_mode e) (current_mode e).

(** Values of the [args] and [context] dictionaries. *)
Inductive Any := JNull | JBool (b : bool) | JInt (z : Z) | JStr (s : string).

(** [d or {}] for an optional dictionary. *)
Definition or_empty (d : option (gmap string Any)) : gmap string Any :=
  match d with
  | Some m => if decide (m = ∅) then ∅ else m
  | None => ∅
  end.

(** [f"{remaining:.1f}"] needs a number. *)
Definition format_remaining (r : option Z) : Result Z :=
  match r with
  | Some x => Return x
  | None => Raise TypeError
  end.

(** [validate]. *)
Definition validate (now : Z) (tool : string)
    (args context : option (gmap string Any)) (e : PolicyEngine)
    : Result bool :=
  let args := or_empty args in
  let context := or_empty context in
  let tp := temp_permission e in
  if bool_decide (tool ∈ always_blocked (global_rules (policy e))) then
    Raise (PolicyViolation
             (mkViolation tool (current_mode e) GloballyBlocked None))
  else
    match modes (policy e) !! current_mode e with
    | None => Raise (KeyError (current_mode e))
    | Some mode_policy =>
        if bool_decide (tool ∈ blocked_tools mode_policy) then
          if is_valid now tp then
            match format_remaining (remaining_time now tp) with
            | Return r =>
                Raise (PolicyViolation
                         (mkViolation tool (current_mode e) BlockedInMode
                            (Some r)))
            | Raise x => Raise x
            end
          else
            Raise (PolicyViolation
                     (mkViolation tool (current_mode e) BlockedInMode None))
        else if negb (bool_decide (tool ∈ allowed_tools mode_policy)) then
          Raise (PolicyViolation
                   (mkViolation tool (current_mode e) NotWhitelisted None))
        else if is_valid now tp then
          match format_remaining (remaining_time now tp) with
          | Return _ => Return true
          | Raise x => Raise x
          end
        else Return true
    end.

(** ** The timer thread *)

Definition set_stage (s : Stage) (t : Timer) : Timer :=
  mkTimer (due t) (finished t) s.

(** The thread of timer [i] leaves [finished.wait(interval)]: at once when
    the timer was cancelled (and then it ends without calling anything), at
    its due time otherwise (and then it is about to call [_expire]). *)
Definition timer_wake (now : Z) (i : nat) (w : World) : option World :=
  match threads w !! i with
  | Some t =>
      match stage t with
      | Waiting =>
          if finished t then
            Some (mkWorld (engine w) (alter (set_stage Done) i (threads w)))
          else if due t <=? now then
            Some (mkWorld (engine w)
                    (alter (set_stage Committed) i (threads w)))
          else None
      | _ => None
      end
  | None => None
  end.

(** The thread of timer [i], past its check of [finished], takes the lock
    and runs [_expire]; then it sets [finished] and ends. *)
Definition timer_run (i : nat) (w : World) : option World :=
  match threads w !! i with
  | Some t =>
      match stage t with
      | Committed =>
          Some (mkWorld (_expire (engine w))
                  (alter (fun t => set_stage Done (cancel t)) i (threads w)))
      | _ => None
      end
  | None => None
  end.

(** Expiry with no interference: the manager's own timer leaves its wait and
    runs [_expire] in one go. *)
Definition expiry (now : Z) (w : World) : option World :=
  match timer (temp_permission (engine w)) with
  | Some i =>
      match timer_wake now i w with
      | Some w1 => timer_run i w1
      | None => None
      end
  | None => None
  end.

(** ** Traces *)

Inductive Op :=
| SetMode (m : string)
| GrantTemporary (duration_seconds : Z)
| ExtendTemporary (additional_seconds : Z)
| RevokeTemporary
| Validate (tool : string) (args context : option (gmap string Any))
| TimerWake (i : nat)
| TimerRun (i : nat).

(** One step at clock reading [now]; [None] when [op] cannot happen in [w].
    [validate] only reads the engine. *)
Definition step (now : Z) (op : Op) (w : World) : option World :=
  match op with
  | SetMode m => Some (snd (set_mode now m w))
  | GrantTemporary d => Some (snd (grant_temporary_emergency now d w))
  | ExtendTemporary a => Some (snd (extend_temporary_emergency now a w))
  | RevokeTemporary => Some (snd (revoke_temporary_emergency w))
  | Validate _ _ _ => Some w
  | TimerWake i => timer_wake now i w
  | TimerRun i => timer_run i w
  end.

Fixpoint run (tr : list (Z * Op)) (w : World) : option World :=
  match tr with
  | [] => Some w
  | (now, op) :: tr' =>
      match step now op w with
      | Some w' => run tr' w'
      | None => None
      end
  end.

(** States the engine built from document [p] can be in when no call
    raises in [grant]; [reaches] below adds the states such calls leave. *)
Definition reachable (p : Policy) (w : World) : Prop :=
  exists tr, run tr (init p) = Some w.

(** Steps of timer threads only: what happens with no call from outside. *)
Definition is_timer_op (op : Op) : bool :=
  match op with
  | TimerWake _ | TimerRun _ => true
  | _ => false
  end.

Definition automatic (tr : list (Z * Op)) : Prop :=
  Forall (fun ev => is_timer_op (snd ev) = true) tr.

(** ** The pipeline as the specification words it *)

Inductive Decision :=
| DAllow
| DViolation (r : Reason).

(** Global stage, then mode-block stage, then mode-allow stage. *)
Definition spec_validate (global_always_blocked : list string) (m : Mode)
    (tool : string) : Decision :=
  if bool_decide (tool ∈ global_always_blocked) then
    DViolation GloballyBlocked
  else if bool_decide (tool ∈ blocked_tools m) then
    DViolation BlockedInMode
  else if bool_decide (tool ∈ allowed_tools m) then DAllow
  else DViolation NotWhitelisted.

(** What a caller of [validate] learns. *)
Definition decision (r : Result bool) : option Decision :=
  match r with
  | Return _ => Some DAllow
  | Raise (PolicyViolation v) => Some (DViolation (reason v))
  | Raise _ => None
  end.

(** ** A sample document *)

Definition normal_mode : Mode :=
  mkMode "Read-only operations" ["get_service_status"] ["restart_service"].

Definition emergency_mode : Mode :=
  mkMode "Incident response" ["get_service_status"; "restart_service"] [].

Definition ops_policy : Policy :=
  mkPolicy "ops" "1.0"
    (<["NORMAL" := normal_mode]> (<["EMERGENCY" := emergency_mode]> ∅))
    (mkGlobalRules ["delete_database"]).

(** A document whose only mode is neither of the two the engine names. *)
Definition safe_only_policy : Policy :=
  mkPolicy "safe" "1.0" (<["SAFE" := normal_mode]> ∅) (mkGlobalRules []).

(** The manager's flags agree: active exactly when an expiry time is set. *)
Definition manager_consistent (tp : TemporaryPermissionManager) : Prop :=
  is_active tp = true -> is_Some (expiry_time tp).

(** What every method and every timer step keeps true of the engine. *)
Definition engine_inv (e : PolicyEngine) : Prop :=
  let tp := temp_permission e in
  (is_active tp = false -> current_mode e = base_mode e) /\
  (is_active tp = true -> on_expiry_callback tp = Some RevertToBase) /\
  manager_consistent tp.

(** The two mode names the engine writes by itself are document modes. *)
Definition defines_builtin_modes (p : Policy) : Prop :=
  is_Some (modes p !! "NORMAL") /\ is_Some (modes p !! "EMERGENCY").

(** A timer that will not call [_expire] any more: its [finished] event is
    set and its thread is not past the check of that event. *)
Definition stopped (t : Timer) : Prop :=
  finished t = true /\ stage t <> Committed.

(** ** Transport layer ([mcp_server/server.py]) *)

Inductive HttpStatus := Http200 | Http422 | Http500.

(** [TemporaryPermissionRequest]:
    [duration_seconds: int = Field(default=10, ge=1, le=300)]. *)
Definition temporary_permission_request (duration_seconds : Z) : bool :=
  (1 <=? duration_seconds) && (duration_seconds <=? 300).

(** The [/policy/grant-temporary] endpoint: a body that fails the request
    model is answered 422 before the handler runs. *)
Definition grant_temporary_permission (now duration_seconds : Z) (w : World)
    : HttpStatus * World :=
  if temporary_permission_request duration_seconds then
    match grant_temporary_emergency now duration_seconds w with
    | (Return _, w') => (Http200, w')
    | (Raise _, w') => (Http500, w')
    end
  else (Http422, w).

(** ** Statements that the code does not meet as worded *)

(** A non-positive duration is rejected and nothing changes. *)
Definition grant_rejects_non_positive : Prop :=
  forall now d w,
    d <= 0 ->
    let r := grant_temporary_emergency now d w in
    (exists x, fst r = Raise x) /\
    current_mode (engine (snd r)) = current_mode (engine w) /\
    base_mode (engine (snd r)) = base_mode (engine w) /\
    is_active (temp_permission (engine (snd r)))
      = is_active (temp_permission (engine w)) /\
    expiry_time (temp_permission (engine (snd r)))
      = expiry_time (temp_permission (engine w)).

(** An extension by [a] seconds of a grant with [r] microseconds left leaves
    exactly [max(0, r) + a] seconds. *)
Definition extend_adds_exactly : Prop :=
  forall now a w r,
    0 < a ->
    is_valid now (temp_permission (engine w)) = true ->
    remaining_time now (temp_permission (engine w)) = Some r ->
    remaining_time now
      (temp_permission (engine (snd (extend_temporary_emergency now a w))))
    = Some (Z.max 0 r + seconds a).

(** Whatever the mode names of the document, [validate] answers with an
    allow or a policy violation. *)
Definition validate_always_decides : Prop :=
  forall p w,
    reachable p w ->
    forall now tool args context,
      is_Some (decision (validate now tool args context (engine w))).

(** Once revoked, the timer that was scheduled never runs [_expire]. *)
Definition revoked_timer_never_fires : Prop :=
  forall p w i,
    reachable p w ->
    timer (temp_permission (engine w)) = Some i ->
    forall tr w',
      run tr (snd (revoke_temporary_emergency w)) = Some w' ->
      timer_run i w' = None.

(** The state after [grant_temporary_emergency(10)] at time 0 once the timer
    thread has left its wait at the due time and is about to take the lock in
    [_expire]. *)
Definition racing_world : World :=
  mkWorld
    (mkEngine ops_policy "EMERGENCY" "NORMAL"
       (mkManager true (Some (seconds 10)) (Some 0%nat) (Some RevertToBase)))
    [mkTimer (seconds 10) false Committed].

Definition is_extend_op (op : Op) : bool :=
  match op with
  | ExtendTemporary _ => true
  | _ => false
  end.

Definition is_set_mode_op (op : Op) : bool :=
  match op with
  | SetMode _ => true
  | _ => false
  end.

(** ** Read accessors of the engine *)

(** [get_allowed_tools]. *)
Definition get_allowed_tools (e : PolicyEngine) : Result (list string) :=
  match modes (policy e) !! current_mode e with
  | Some mode_policy => Return (allowed_tools mode_policy)
  | None => Raise (KeyError (current_mode e))
  end.

(** [get_blocked_tools]. *)
Definition get_blocked_tools (e : PolicyEngine) : Result (list string) :=
  match modes (policy e) !! current_mode e with
  | Some mode_policy => Return (blocked_tools mode_policy)
  | None => Raise (KeyError (current_mode e))
  end.

(** A mode name the engine can hold: one of the two it writes by itself or a
    key of [policy['modes']]. *)
Definition mode_known (p : Policy) (m : string) : Prop :=
  m = "NORMAL" \/ m = "EMERGENCY" \/ is_Some (modes p !! m).


(** ** Transport layer: the other handlers of [mcp_server/server.py] *)

(** What a handler answers: a body (status 200), an [HTTPException], the
    422 of a request body that fails its model, or an exception that leaves
    the handler uncaught. *)
Inductive Reply (A : Type) :=
| Ok200 (body : A)
| HTTPException (status_code : Z) (detail : string)
| ValidationError422
| Unhandled (e : Exn).
Arguments Ok200 {A} body.
Arguments HTTPException {A} status_code detail.
Arguments ValidationError422 {A}.
Arguments Unhandled {A} e.

(** Body of the answer of [/policy/set-mode]. *)
Record ModeChangeReply := mkModeChangeReply {
  new_mode : string;
  reply_allowed_tools : list string
}.

(** The handler [set_mode] of [/policy/set-mode]. *)
Definition policy_set_mode (now : Z) (m : string) (w : World)
    : Reply ModeChangeReply * World :=
  match set_mode now m w with
  | (Raise (ValueError msg), w') => (HTTPException 400 msg, w')
  | (Raise x, w') => (Unhandled x, w')
  | (Return _, w') =>
      match get_allowed_tools (engine w') with
      | Return l => (Ok200 (mkModeChangeReply m l), w')
      | Raise x => (Unhandled x, w')
      end
  end.

Record RevokeReply := mkRevokeReply {
  reply_message : string;
  reply_current_mode : option string
}.

(** [ToolRequest] and [ToolResponse]; [None] values are [JNull]. *)
Record ToolRequest := mkToolRequest {
  req_tool_name : string;
  req_arguments : gmap string Any;
  req_context : option (gmap string Any)
}.

Record ToolResponse := mkToolResponse {
  success : bool;
  result : Any;
  error : option string;
  policy_violation : bool;
  blocked_reason : option string
}.

(** The keys of [tool_map] in [_execute_tool_function]. *)
Definition tool_map : list string :=
  ["get_service_status"; "read_logs"; "restart_service"; "scale_fleet";
   "delete_database"; "list_services"].

(** What calling a tool function on the arguments does: it returns a value, or
    raises [TypeError], or raises another exception; [msg] is [str(e)]. *)
Inductive ToolOutcome :=
| ToolReturn (v : Any)
| ToolTypeError (msg : string)
| ToolError (msg : string).

Section Server.

(** The state of [cloud_infra] and the tool functions of
    [mcp_server/tools.py], which act on it. *)
Variable Infra : Type.
Variable call_tool : string -> gmap string Any -> Infra -> ToolOutcome * Infra.

(** [f"{x:.1f}"] for a number of microseconds shown in seconds. *)
Variable format_1f : Z -> string.

(** [str(e)] for a [PolicyViolationError]: the message [validate] gave. *)
Definition violation_message (v : PolicyViolationError) : string :=
  match reason v with
  | GloballyBlocked => "Tool '" +:+ tool_name v +:+ "' is globally blocked"
  | BlockedInMode =>
      "Tool '" +:+ tool_name v +:+ "' is blocked in " +:+ mode v +:+ " mode"
      +:+ match temp_status v with
          | Some r =>
              " (Temporary permission: " +:+ format_1f r +:+ "s remaining)"
          | None => ""
          end
  | NotWhitelisted =>
      "Tool '" +:+ tool_name v +:+ "' not in allowed list for "
      +:+ mode v +:+ " mode"
  end.

(** [str(e)] for the exceptions of the engine. *)
Definition exn_text (x : Exn) : string :=
  match x with
  | PolicyViolation v => violation_message v
  | KeyError k => "'" +:+ k +:+ "'"
  | ValueError msg => msg
  | TypeError => "unsupported format string passed to NoneType.__format__"
  end.

(** The handler of [/policy/revoke-temporary]. *)
Definition revoke_temporary_permission (now : Z) (w : World)
    : Reply RevokeReply * World :=
  if negb (status_is_active (get_temporary_status now (engine w))) then
    (Ok200 (mkRevokeReply "No active temporary permission to revoke" None),
     w)
  else
    match revoke_temporary_emergency w with
    | (Return _, w') =>
        (Ok200 (mkRevokeReply "Temporary permission revoked"
                  (Some (get_current_mode (engine w')))), w')
    | (Raise x, w') => (HTTPException 500 (exn_text x), w')
    end.

(** [_execute_tool_function]: the value returned, or [str(e)] of the
    exception raised. *)
Definition _execute_tool_function (tool : string)
    (args : gmap string Any) (infra : Infra) : (Any + string) * Infra :=
  if negb (bool_decide (tool ∈ tool_map)) then
    (inr ("Unknown tool: " +:+ tool), infra)
  else
    match call_tool tool args infra with
    | (ToolReturn v, infra') => (inl v, infra')
    | (ToolTypeError msg, infra') =>
        (inr ("Invalid arguments for " +:+ tool +:+ ": " +:+ msg), infra')
    | (ToolError msg, infra') => (inr msg, infra')
    end.

(** The handler of [/tools/execute]. *)
Definition execute_tool (now : Z) (request : ToolRequest) (w : World)
    (infra : Infra) : Reply ToolResponse * Infra :=
  let e := engine w in
  let temp := get_temporary_status now e in
  match (if status_is_active temp
         then format_remaining (status_remaining_seconds temp)
         else Return 0) with
  | Raise x => (Unhandled x, infra)
  | Return _ =>
      match validate now (req_tool_name request)
              (Some (req_arguments request)) (req_context request) e with
      | Raise (PolicyViolation v) =>
          (Ok200 (mkToolResponse false JNull
                    (Some ("Policy violation: "
                           +:+ reason_text (reason v) (mode v)))
                    true (Some (violation_message v))), infra)
      | Raise x => (Unhandled x, infra)
      | Return _ =>
          match _execute_tool_function (req_tool_name request)
                  (req_arguments request) infra with
          | (inl v, infra') =>
              (Ok200 (mkToolResponse true v None false None), infra')
          | (inr msg, infra') =>
              (Ok200 (mkToolResponse false JNull
                        (Some ("Execution error: " +:+ msg)) false None),
               infra')
          end
      end
  end.

End Server.

(** Tool functions for examples: the infrastructure is the list of the tools
    that ran, and [restart_service] wants an argument [service]. *)
Definition log_tool (tool : string) (args : gmap string Any)
    (infra : list string) : ToolOutcome * list string :=
  if bool_decide (tool = "restart_service") then
    match args !! "service" with
    | Some _ => (ToolReturn (JStr "restarted"), (tool :: infra)%list)
    | None => (ToolTypeError "missing argument", infra)
    end
  else (ToolReturn JNull, (tool :: infra)%list).

Definition plain_1f (r : Z) : string := "?".

(** ** Range of [datetime] and of exact float sums *)

(** Clock readings count microseconds from [datetime.min];
    [datetime.max] is the last reading a [datetime] can hold.  Line 57 of
    the source, [datetime.now() + timedelta(seconds=duration_seconds)],
    raises [OverflowError] when the sum is not such a reading. *)
Definition datetime_max : Z := 315537897599999999.

Definition representable (t : Z) : Prop := 0 <= t <= datetime_max.

(** A number of seconds small enough for [int(remaining + additional)] to
    be the exact truncation of the sum: below 2^31 the error of the float
    sum of a time in microseconds and a whole number of seconds is less
    than a microsecond. *)
Definition exact_seconds (n : Z) : Prop := 0 <= n <= 1000000000.

(** The state [grant_temporary_emergency] leaves when line 57 raises: the
    modes are written, the old timer is cancelled and [is_active] is set,
    but [expiry_time], the callback and [timer] keep their old values and no
    timer is started. *)
Definition failed_grant_temporary_emergency (w : World) : World :=
  let e := engine w in
  let tp := temp_permission e in
  mkWorld
    (mkEngine (policy e) "EMERGENCY" (current_mode e)
       (mkManager true (expiry_time tp) (timer tp) (on_expiry_callback tp)))
    match timer tp with
    | Some i => alter cancel i (threads w)
    | None => threads w
    end.

(** The state [extend_temporary_emergency] leaves when the [grant] it calls
    raises at line 57: the grant was valid, so [is_active] was set already,
    and only the cancellation of the timer is new. *)
Definition failed_extend_temporary_emergency (w : World) : World :=
  let e := engine w in
  let tp := temp_permission e in
  mkWorld
    (mkEngine (policy e) (current_mode e) (base_mode e)
       (mkManager true (expiry_time tp) (timer tp) (on_expiry_callback tp)))
    match timer tp with
    | Some i => alter cancel i (threads w)
    | None => threads w
    end.

(** An extension whose new duration is [new_duration], whatever the float
    sum rounds to. *)
Definition extend_with (now new_duration : Z) (w : World) : World :=
  let e := engine w in
  let '(tp1, th1) :=
    grant now new_duration (Some RevertToBase)
      (temp_permission e) (threads w) in
  mkWorld (mkEngine (policy e) (current_mode e) (base_mode e) tp1) th1.

(** The states of [reachable] together with the ones left by grants and
    extensions that raise [OverflowError] or round their float sum: every
    state the engine built from [p] can be in, each method taken as one
    step. *)
Inductive reaches (p : Policy) : World -> Prop :=
| reaches_init : reaches p (init p)
| reaches_step now op w w' :
    reaches p w -> step now op w = Some w' -> reaches p w'
| reaches_failed_grant w :
    reaches p w -> reaches p (failed_grant_temporary_emergency w)
| reaches_failed_extend now w :
    reaches p w ->
    is_valid now (temp_permission (engine w)) = true ->
    reaches p (failed_extend_temporary_emergency w)
| reaches_extend_with now new_duration w :
    reaches p w ->
    is_valid now (temp_permission (engine w)) = true ->
    reaches p (extend_with now new_duration w).

(** ** Sanity checks on the sample document *)

Example validate_normal_blocked :
  validate 0 "restart_service" None None (engine (init ops_policy))
  = Raise (PolicyViolation
             (mkViolation "restart_service" "NORMAL" BlockedInMode None)).
Proof. vm_compute. reflexivity. Qed.

Example validate_after_grant :
  validate 1 "restart_service" None None
    (engine (snd (grant_temporary_emergency 0 10 (init ops_policy))))
  = Return true.
Proof. vm_compute. reflexivity. Qed.

Example validate_after_expiry :
  (fun w => validate (seconds 10) "restart_service" None None (engine w))
    <$> expiry (seconds 10)
          (snd (grant_temporary_emergency 0 10 (init ops_policy)))
  = Some (Raise (PolicyViolation
             (mkViolation "restart_service" "NORMAL" BlockedInMode None))).
Proof. vm_compute. reflexivity. Qed.

Example validate_unlisted :
  validate 0 "scale_fleet" None None (engine (init ops_policy))
  = Raise (PolicyViolation
             (mkViolation "scale_fleet" "NORMAL" NotWhitelisted None)).
Proof. vm_compute. reflexivity. Qed.

(** * Properties *)

(** ** Reasoning along traces *)

Lemma run_invariant (P : World -> Prop) :
  (forall now op w w', P w -> step now op w = Some w' -> P w') ->
  forall tr w w', P w -> run tr w = Some w' -> P w'.
Proof.
  intros Hstep tr.
  induction tr as [|[now op] tr IH]; intros w w' Hw Hrun; simpl in Hrun.
  - congruence.
  - destruct (step now op w) as [w1|] eqn:Hs; [|discriminate].
    apply (IH w1); [|assumption].
    apply (Hstep now op w); assumption.
Qed.

Lemma reachable_invariant (p : Policy) (P : World -> Prop) :
  P (init p) ->
  (forall now op w w', P w -> step now op w = Some w' -> P w') ->
  forall w, reachable p w -> P w.
Proof.
  intros Hinit Hstep w [tr Hrun].
  apply (run_invariant P Hstep tr (init p)); assumption.
Qed.

Lemma run_app tr1 tr2 w w1 :
  run tr1 w = Some w1 -> run (tr1 ++ tr2)%list w = run tr2 w1.
Proof.
  revert w. induction tr1 as [|[now op] tr1 IH]; intros w Hrun; simpl in *.
  - congruence.
  - destruct (step now op w) as [w'|]; [|discriminate].
    apply IH. assumption.
Qed.

Lemma reachable_init p : reachable p (init p).
Proof. exists []. reflexivity. Qed.

Lemma reachable_run p tr w w' :
  reachable p w -> run tr w = Some w' -> reachable p w'.
Proof.
  intros [tr0 H0] Hrun. exists (tr0 ++ tr)%list.
  rewrite (run_app _ _ _ _ H0). assumption.
Qed.

(** Splits a step into the paths of the method it calls. *)
Ltac step_paths H :=
  match type of H with
  | step _ ?op _ = Some _ => destruct op
  end;
  simpl in H;
  unfold set_mode, grant_temporary_emergency, extend_temporary_emergency,
    revoke_temporary_emergency, timer_wake, timer_run, grant, revoke in H;
  repeat match type of H with
         | context [match ?x with _ => _ end] => destruct x eqn:?; simpl in H
         end;
  try discriminate H;
  injection H as <-; simpl.

(** The document is never written after construction. *)
Lemma step_policy now op w w' :
  step now op w = Some w' -> policy (engine w') = policy (engine w).
Proof.
  intros H. step_paths H; try reflexivity.
  unfold _expire. destruct (on_expiry_callback _) as [[]|]; reflexivity.
Qed.

Lemma run_policy tr w w' :
  run tr w = Some w' -> policy (engine w') = policy (engine w).
Proof.
  apply (run_invariant (fun x => policy (engine x) = policy (engine w))).
  - intros now op w1 w2 IH Hs. rewrite (step_policy _ _ _ _ Hs). exact IH.
  - reflexivity.
Qed.

Lemma reachable_policy p w : reachable p w -> policy (engine w) = p.
Proof. intros [tr H]. apply run_policy in H. exact H. Qed.

(** ** Invariants of the state machine *)

Lemma step_engine_inv now op w w' :
  engine_inv (engine w) -> step now op w = Some w' -> engine_inv (engine w').
Proof.
  unfold engine_inv, manager_consistent.
  intros (Hmode & Hcb & Hexp) H.
  step_paths H;
    try (repeat split; simpl; intros; try discriminate; eauto; fail).
  (* the timer thread runs _expire *)
  unfold _expire.
  destruct (on_expiry_callback (temp_permission (engine w))) as [[]|] eqn:Hc;
    simpl; repeat split; intros; try discriminate.
  destruct (is_active (temp_permission (engine w))) eqn:Ha.
  - discriminate (Hcb eq_refl).
  - apply Hmode. reflexivity.
Qed.

Lemma init_engine_inv p : engine_inv (engine (init p)).
Proof.
  unfold engine_inv, manager_consistent; simpl.
  repeat split; intros; try discriminate; reflexivity.
Qed.

Lemma reachable_engine_inv p w : reachable p w -> engine_inv (engine w).
Proof.
  apply (reachable_invariant p (fun x => engine_inv (engine x))).
  - apply init_engine_inv.
  - intros now op w1 w2. apply step_engine_inv.
Qed.

Lemma step_modes_defined now op w w' :
  defines_builtin_modes (policy (engine w)) ->
  is_Some (modes (policy (engine w)) !! current_mode (engine w)) /\
  is_Some (modes (policy (engine w)) !! base_mode (engine w)) ->
  step now op w = Some w' ->
  is_Some (modes (policy (engine w')) !! current_mode (engine w')) /\
  is_Some (modes (policy (engine w')) !! base_mode (engine w')).
Proof.
  intros [Hn He] [Hc Hb] H.
  step_paths H; try (split; eauto; fail).
  unfold _expire.
  destruct (on_expiry_callback _) as [[]|]; simpl; split; assumption.
Qed.

Lemma reachable_modes_defined p w :
  defines_builtin_modes p ->
  reachable p w ->
  is_Some (modes p !! current_mode (engine w)) /\
  is_Some (modes p !! base_mode (engine w)).
Proof.
  intros Hp Hr.
  cut (policy (engine w) = p /\
       is_Some (modes (policy (engine w)) !! current_mode (engine w)) /\
       is_Some (modes (policy (engine w)) !! base_mode (engine w))).
  { intros (<- & H). exact H. }
  revert w Hr. apply reachable_invariant.
  - simpl. destruct Hp as [Hn _]. repeat split; exact Hn.
  - intros now op w1 w2 (Hpol & IH) Hs. split.
    + rewrite (step_policy _ _ _ _ Hs). exact Hpol.
    + apply (step_modes_defined now op w1); try assumption.
      rewrite Hpol. exact Hp.
Qed.

(** ** The validation pipeline *)

Lemma remaining_when_valid now tp :
  manager_consistent tp ->
  is_valid now tp = true ->
  exists r, remaining_time now tp = Some r /\ 0 < r.
Proof.
  unfold manager_consistent, is_valid, remaining_time.
  intros Hc Hv. apply andb_prop in Hv as [Ha Hlt].
  destruct (Hc Ha) as [e He]. rewrite Ha, He in *. simpl.
  exists (Z.max 0 (e - now)). split; [reflexivity | lia].
Qed.

Lemma validate_decision e m now tool args context :
  manager_consistent (temp_permission e) ->
  modes (policy e) !! current_mode e = Some m ->
  decision (validate now tool args context e)
  = Some (spec_validate (always_blocked (global_rules (policy e))) m tool).
Proof.
  intros Hcons Hm. unfold validate, spec_validate. rewrite Hm.
  destruct (is_valid now (temp_permission e)) eqn:Hv.
  - destruct (remaining_when_valid now _ Hcons Hv) as (t & -> & _). simpl.
    repeat case_bool_decide; reflexivity.
  - repeat case_bool_decide; reflexivity.
Qed.

(** C1. A tool listed in [global_rules.always_blocked] is refused with the
    globally-blocked violation by [validate], from any engine state (any
    current mode, temporary permission active or not) and after any further
    sequence of mode changes, grants, extensions, revocations and timer
    steps: the global check comes first and nothing unblocks the tool. *)
Theorem validate_globally_blocked (w : World) (tool : string) :
  tool ∈ always_blocked (global_rules (policy (engine w))) ->
  forall tr w',
    run tr w = Some w' ->
    forall now args context,
      validate now tool args context (engine w')
      = Raise (PolicyViolation
                 (mkViolation tool (current_mode (engine w'))
                    GloballyBlocked None)).
Proof.
  intros Hin tr w' Hrun now args context.
  unfold validate.
  rewrite (run_policy _ _ _ Hrun).
  rewrite bool_decide_eq_true_2 by exact Hin.
  reflexivity.
Qed.

Lemma validate_globally_blocked_witness :
  "delete_database"
    ∈ always_blocked (global_rules (policy (engine (init ops_policy)))) /\
  validate 1 "delete_database" None None
    (engine (snd (grant_temporary_emergency 0 300 (init ops_policy))))
  = Raise (PolicyViolation
             (mkViolation "delete_database" "EMERGENCY" GloballyBlocked None)).
Proof.
  assert (Hin : "delete_database"
    ∈ always_blocked (global_rules (policy (engine (init ops_policy))))).
  { simpl. constructor. }
  split; [exact Hin|].
  apply (validate_globally_blocked (init ops_policy) "delete_database" Hin
           [(0, GrantTemporary 300)]).
  reflexivity.
Defined.



(** In the state a grant that raised [OverflowError] leaves on a fresh
    engine, [is_active] is set with no [expiry_time], and [validate] of an
    allowed tool fails while formatting the remaining time. *)
Example validate_after_failed_grant :
  validate 1 "restart_service" None None
    (engine (failed_grant_temporary_emergency (init ops_policy)))
  = Raise TypeError.
Proof. vm_compute. reflexivity. Qed.

(** C9. The answer of [validate] is the same for any two argument
    dictionaries and any two context dictionaries: it is a function of the
    tool name and of the engine state only. *)
Theorem validate_ignores_args_and_context (e : PolicyEngine) (now : Z)
    (tool : string) (a1 a2 c1 c2 : option (gmap string Any)) :
  validate now tool a1 c1 e = validate now tool a2 c2 e
  /\ decision (validate now tool a1 c1 e)
     = decision (validate now tool a2 c2 e).
Proof. split; reflexivity. Qed.

(** ** The mode state machine *)

(** C4. In every state reached from construction by any sequence of
    [set_mode], grants, extensions, revocations, validations and timer steps
    (an expiry is a timer leaving its wait and running [_expire]), if the
    manager's [is_active] flag is off then [current_mode] equals
    [base_mode]. *)
Theorem current_is_base_when_no_grant (p : Policy) (w : World) :
  reachable p w ->
  is_active (temp_permission (engine w)) = false ->
  current_mode (engine w) = base_mode (engine w).
Proof.
  intros Hr Hoff.
  destruct (reachable_engine_inv p w Hr) as (Hmode & _).
  apply Hmode. exact Hoff.
Qed.

(** [is_valid] also reads the clock: past the expiry time and before the timer
    thread has run, it is already false while the flag is still on and the
    engine still in "EMERGENCY". *)
Example lapsed_grant_still_elevated :
  (fun w => (is_valid (seconds 10) (temp_permission (engine w)),
             is_active (temp_permission (engine w)),
             current_mode (engine w), base_mode (engine w)))
    (snd (grant_temporary_emergency 0 10 (init ops_policy)))
  = (false, true, "EMERGENCY", "NORMAL").
Proof. vm_compute. reflexivity. Qed.

Lemma current_is_base_when_no_grant_witness :
  let w := mkWorld (mkEngine ops_policy "NORMAL" "NORMAL"
                      (mkManager false None None (Some RevertToBase)))
                   [mkTimer (seconds 10) true Done] in
  reachable ops_policy w /\
  is_active (temp_permission (engine w)) = false /\
  current_mode (engine w) = base_mode (engine w).
Proof.
  intros w.
  assert (Hr : reachable ops_policy w).
  { exists [(0, GrantTemporary 10); (seconds 10, TimerWake 0%nat);
            (seconds 10 + 1, TimerRun 0%nat)].
    vm_compute. reflexivity. }
  assert (Hoff : is_active (temp_permission (engine w)) = false).
  { reflexivity. }
  split; [exact Hr|]. split; [exact Hoff|].
  exact (current_is_base_when_no_grant ops_policy w Hr Hoff).
Defined.

(** ** States left by calls that raise *)

Lemma reachable_reaches p w : reachable p w -> reaches p w.
Proof.
  apply reachable_invariant.
  - constructor.
  - intros now op w1 w2 IH Hs. exact (reaches_step p now op w1 w2 IH Hs).
Qed.

Lemma reaches_policy p w : reaches p w -> policy (engine w) = p.
Proof.
  induction 1 as [|now op w w' _ IH Hs|w _ IH|now w _ IH _|now nd w _ IH _];
    try assumption; try reflexivity.
  rewrite (step_policy _ _ _ _ Hs). exact IH.
Qed.

Lemma reaches_modes_defined p w :
  defines_builtin_modes p ->
  reaches p w ->
  is_Some (modes p !! current_mode (engine w)) /\
  is_Some (modes p !! base_mode (engine w)).
Proof.
  intros Hp.
  induction 1 as [|now op w w' Hr IH Hs|w Hr IH|now w Hr IH _|now nd w Hr IH _].
  - destruct Hp as [Hn _]. split; exact Hn.
  - pose proof (reaches_policy p w Hr) as Hpol.
    pose proof (step_policy _ _ _ _ Hs) as Hpol'.
    rewrite <- Hpol, <- Hpol'.
    apply (step_modes_defined now op w); rewrite ?Hpol; assumption.
  - destruct Hp as [_ He]. destruct IH as [Hc _]. split; assumption.
  - exact IH.
  - exact IH.
Qed.

(** C7, counterexample. With a document whose only mode is "SAFE" the engine
    still starts in "NORMAL", and [validate] of a tool that is not globally
    blocked raises [KeyError] instead of answering. *)
Lemma validate_always_decides_fails : ~ validate_always_decides.
Proof.
  intros H.
  specialize (H safe_only_policy (init safe_only_policy)
                (reachable_init safe_only_policy)
                0 "get_service_status" None None).
  vm_compute in H. destruct H as [d Hd]. discriminate Hd.
Qed.

Example validate_safe_only_key_error :
  validate 0 "get_service_status" None None (engine (init safe_only_policy))
  = Raise (KeyError "NORMAL").
Proof. vm_compute. reflexivity. Qed.

(** C7, amended. For a document that follows the schema and defines the two
    modes the engine names by itself ("NORMAL" and "EMERGENCY"), the current
    mode and the base mode of every state the engine reaches, also after
    calls that raised, are modes of the document.  In such a state, as long as the manager keeps an
    [expiry_time] whenever [is_active] is set, [validate] answers with an
    allow or a policy violation for any tool name and leaves the engine as
    it was; and [set_mode] returns or raises [ValueError] without changing
    anything. *)
Theorem validate_decides_with_builtin_modes (p : Policy) (w : World) :
  defines_builtin_modes p ->
  reaches p w ->
  (is_Some (modes p !! current_mode (engine w)) /\
   is_Some (modes p !! base_mode (engine w))) /\
  (manager_consistent (temp_permission (engine w)) ->
   forall now tool args context,
      is_Some (decision (validate now tool args context (engine w))) /\
      step now (Validate tool args context) w = Some w) /\
  (forall now m,
      (is_Some (modes p !! m) /\ fst (set_mode now m w) = Return ()) \/
      (modes p !! m = None /\
       set_mode now m w = (Raise (ValueError ("Invalid mode: " +:+ m)), w))).
Proof.
  intros Hp Hr.
  pose proof (reaches_policy p w Hr) as Hpol.
  pose proof (reaches_modes_defined p w Hp Hr) as Hdef.
  split; [exact Hdef|]. split.
  - intros Hcons now tool args context. split; [|reflexivity].
    destruct Hdef as [[m Hm] _]. rewrite <- Hpol in Hm.
    rewrite (validate_decision _ m now tool args context Hcons Hm).
    eexists. reflexivity.
  - intros now m0. unfold set_mode. rewrite Hpol.
    destruct (modes p !! m0) as [x|] eqn:Hx.
    + left. split; [eexists; reflexivity | reflexivity].
    + right. split; reflexivity.
Qed.

Lemma validate_decides_with_builtin_modes_witness :
  let w := failed_grant_temporary_emergency (init ops_policy) in
  defines_builtin_modes ops_policy /\
  reaches ops_policy w /\
  is_Some (modes ops_policy !! current_mode (engine w)) /\
  reaches ops_policy (init ops_policy) /\
  manager_consistent (temp_permission (engine (init ops_policy))) /\
  is_Some (decision
             (validate 0 "restart_service" None None
                (engine (init ops_policy)))).
Proof.
  intros w.
  assert (Hp : defines_builtin_modes ops_policy).
  { split; eexists; vm_compute; reflexivity. }
  assert (Hi : reaches ops_policy (init ops_policy)) by constructor.
  assert (Hw : reaches ops_policy w).
  { apply reaches_failed_grant. exact Hi. }
  assert (Hc : manager_consistent
                 (temp_permission (engine (init ops_policy)))).
  { intros Ha. discriminate Ha. }
  destruct (validate_decides_with_builtin_modes ops_policy w Hp Hw)
    as ([Hdef _] & _ & _).
  destruct (validate_decides_with_builtin_modes ops_policy (init ops_policy)
              Hp Hi) as (_ & Hv & _).
  destruct (Hv Hc 0 "restart_service" None None) as [Hd _].
  split; [exact Hp|]. split; [exact Hw|]. split; [exact Hdef|].
  split; [exact Hi|]. split; [exact Hc | exact Hd].
Defined.

(** ** Life of a timer *)

Lemma lookup_alter_timer (f : Timer -> Timer) (j i : nat) (l : list Timer) t :
  l !! i = Some t ->
  alter f j l !! i = Some (if decide (j = i) then f t else t).
Proof.
  intros Hl. rewrite list_lookup_alter.
  case_decide; subst; rewrite Hl; reflexivity.
Qed.

(** A stopped timer stays stopped, whatever happens next. *)
Lemma step_stopped now op w w' i t :
  threads w !! i = Some t ->
  stopped t ->
  step now op w = Some w' ->
  exists t', threads w' !! i = Some t' /\ stopped t'.
Proof.
  intros Hl [Hf Hs] H.
  step_paths H;
    (eexists; split;
     [ first [ exact Hl
             | apply lookup_app_l_Some;
               first [ exact Hl | apply (lookup_alter_timer _ _ _ _ _ Hl) ]
             | apply (lookup_alter_timer _ _ _ _ _ Hl) ]
     | ]);
    unfold stopped; try case_decide; simplify_eq; simpl;
    try congruence;
    (split; [first [assumption | reflexivity] | first [assumption | discriminate]]).
Qed.

Lemma run_stopped tr w w' i t :
  threads w !! i = Some t ->
  stopped t ->
  run tr w = Some w' ->
  exists t', threads w' !! i = Some t' /\ stopped t'.
Proof.
  intros Hl Hst.
  apply (run_invariant
           (fun x => exists t', threads x !! i = Some t' /\ stopped t')).
  - intros now op w1 w2 (t1 & Hl1 & Hst1). apply step_stopped with t1; assumption.
  - exists t. split; assumption.
Qed.

(** A stopped timer never runs [_expire]. *)
Lemma stopped_never_fires tr w w' i t :
  threads w !! i = Some t ->
  stopped t ->
  run tr w = Some w' ->
  timer_run i w' = None.
Proof.
  intros Hl Hst Hrun.
  destruct (run_stopped tr w w' i t Hl Hst Hrun) as (t' & Hl' & _ & Hs').
  unfold timer_run. rewrite Hl'.
  destruct (stage t'); try reflexivity. contradiction.
Qed.

(** Timer steps leave [base_mode] alone, and [current_mode] either stays or
    becomes [base_mode]. *)
Lemma timer_step_modes now op w w' :
  is_timer_op op = true ->
  step now op w = Some w' ->
  base_mode (engine w') = base_mode (engine w) /\
  (current_mode (engine w') = current_mode (engine w) \/
   current_mode (engine w') = base_mode (engine w)).
Proof.
  intros Hop H. step_paths H; try discriminate Hop; try (split; [|left]; reflexivity).
  unfold _expire.
  destruct (on_expiry_callback _) as [[]|]; simpl; split; auto.
Qed.

Lemma automatic_keeps_mode tr w w' m :
  automatic tr ->
  run tr w = Some w' ->
  current_mode (engine w) = m ->
  base_mode (engine w) = m ->
  current_mode (engine w') = m /\ base_mode (engine w') = m.
Proof.
  intros Hauto. revert w.
  induction Hauto as [|[now op] tr Hop _ IH]; intros w Hrun Hc Hb;
    simpl in Hrun.
  - injection Hrun as <-. split; assumption.
  - destruct (step now op w) as [w1|] eqn:Hs; [|discriminate].
    destruct (timer_step_modes now op w w1 Hop Hs) as [Hb1 Hc1].
    apply (IH w1 Hrun); [|congruence].
    destruct Hc1; congruence.
Qed.

(** ** Revocation *)

Lemma racing_world_reachable : reachable ops_policy racing_world.
Proof.
  exists [(0, GrantTemporary 10); (seconds 10, TimerWake 0%nat)].
  vm_compute. reflexivity.
Qed.

(** The timer thread has left its wait when [revoke_temporary_emergency]
    runs: [cancel()] comes too late and the thread still runs [_expire]
    afterwards. *)
Lemma revoked_timer_never_fires_fails : ~ revoked_timer_never_fires.
Proof.
  intros H.
  specialize (H ops_policy racing_world 0%nat racing_world_reachable
                eq_refl [] (snd (revoke_temporary_emergency racing_world))
                eq_refl).
  vm_compute in H. discriminate H.
Qed.

(** The late [_expire] is not harmless: it ends a grant made in between. *)
Example stale_timer_ends_new_grant :
  (fun w => (current_mode (engine w),
             is_active (temp_permission (engine w)),
             stage <$> threads w))
    <$> run [(seconds 10, RevokeTemporary);
             (seconds 11, GrantTemporary 300);
             (seconds 12, TimerRun 0%nat)] racing_world
  = Some ("NORMAL", false, [Done; Waiting]).
Proof. vm_compute. reflexivity. Qed.

(** C8. The code breaks the claim when the revocation races with the timer.
    A grant of 10 s is made at time 0; at 10 s its timer thread leaves its
    wait and passes the check of [finished]; before the thread takes the
    lock, [revoke_temporary_emergency] runs, and [current_mode] is
    [base_mode] at once as claimed; a grant of 300 s is made at 11 s; at
    12 s the first thread runs [_expire] all the same: the new grant is
    ended after one second, the engine is back in "NORMAL", the manager
    references no timer, and the timer of the new grant is left waiting. *)
Example revoke_race_ends_later_grant :
  (fun w => (current_mode (engine w), base_mode (engine w)))
    <$> run [(0, GrantTemporary 10); (seconds 10, TimerWake 0%nat);
             (seconds 10, RevokeTemporary)] (init ops_policy)
  = Some ("NORMAL", "NORMAL") /\
  (fun w => (current_mode (engine w),
             is_active (temp_permission (engine w)),
             timer (temp_permission (engine w)),
             threads w))
    <$> run [(0, GrantTemporary 10); (seconds 10, TimerWake 0%nat);
             (seconds 10, RevokeTemporary);
             (seconds 11, GrantTemporary 300);
             (seconds 12, TimerRun 0%nat)] (init ops_policy)
  = Some ("NORMAL", false, None,
          [mkTimer (seconds 10) true Done;
           mkTimer (seconds 311) false Waiting]).
Proof. split; vm_compute; reflexivity. Qed.

(** What the cancellation in [revoke_temporary_emergency] does achieve:
    after the call [current_mode] equals [base_mode] (which is unchanged)
    and the grant is inactive; and a timer that was still in its waiting
    stage when it was cancelled never runs [_expire] afterwards, whatever
    happens next. *)
Theorem revoke_reverts_and_stops_waiting_timer (w : World) :
  let w1 := snd (revoke_temporary_emergency w) in
  current_mode (engine w1) = base_mode (engine w1) /\
  base_mode (engine w1) = base_mode (engine w) /\
  is_active (temp_permission (engine w1)) = false /\
  timer (temp_permission (engine w1)) = None /\
  forall i t,
    timer (temp_permission (engine w)) = Some i ->
    threads w !! i = Some t ->
    stage t = Waiting ->
    forall tr w', run tr w1 = Some w' -> timer_run i w' = None.
Proof.
  unfold revoke_temporary_emergency, revoke. simpl.
  repeat split.
  intros i t Hi Hl Hst tr w' Hrun. rewrite Hi in Hrun.
  eapply (stopped_never_fires tr _ w' i (cancel t)); [| |exact Hrun].
  - simpl. rewrite (lookup_alter_timer _ _ _ _ _ Hl).
    rewrite decide_True by reflexivity. reflexivity.
  - split; simpl; [reflexivity | congruence].
Qed.

Lemma revoke_reverts_and_stops_waiting_timer_witness :
  let w := snd (grant_temporary_emergency 0 10 (init ops_policy)) in
  let t := mkTimer (seconds 10) false Waiting in
  let w1 := snd (revoke_temporary_emergency w) in
  timer (temp_permission (engine w)) = Some 0%nat /\
  threads w !! 0%nat = Some t /\
  stage t = Waiting /\
  run [(seconds 10, TimerWake 0%nat)] w1
    = Some (mkWorld (engine w1) [mkTimer (seconds 10) true Done]) /\
  timer_run 0 (mkWorld (engine w1) [mkTimer (seconds 10) true Done]) = None.
Proof.
  intros w t w1.
  assert (Hi : timer (temp_permission (engine w)) = Some 0%nat) by reflexivity.
  assert (Hl : threads w !! 0%nat = Some t) by reflexivity.
  assert (Hs : stage t = Waiting) by reflexivity.
  assert (Hrun : run [(seconds 10, TimerWake 0%nat)] w1
                 = Some (mkWorld (engine w1) [mkTimer (seconds 10) true Done])).
  { vm_compute. reflexivity. }
  repeat (split; [assumption|]).
  destruct (revoke_reverts_and_stops_waiting_timer w) as (_ & _ & _ & _ & H).
  exact (H 0%nat t Hi Hl Hs _ _ Hrun).
Defined.

(** ** Expiry without interference *)

Lemma timer_wake_engine now i w w' :
  timer_wake now i w = Some w' -> engine w' = engine w.
Proof.
  unfold timer_wake. intros H.
  repeat match type of H with
         | context [match ?x with _ => _ end] => destruct x eqn:?; simpl in H
         end;
    try discriminate H; injection H as <-; reflexivity.
Qed.

Lemma timer_run_engine i w w' :
  timer_run i w = Some w' -> engine w' = _expire (engine w).
Proof.
  unfold timer_run. intros H.
  repeat match type of H with
         | context [match ?x with _ => _ end] => destruct x eqn:?; simpl in H
         end;
    try discriminate H; injection H as <-; reflexivity.
Qed.

Lemma expiry_engine now w w' :
  expiry now w = Some w' -> engine w' = _expire (engine w).
Proof.
  unfold expiry. intros H.
  destruct (timer (temp_permission (engine w))) as [i|]; [|discriminate].
  destruct (timer_wake now i w) as [w1|] eqn:Hw; [|discriminate].
  rewrite (timer_run_engine _ _ _ H), (timer_wake_engine _ _ _ _ Hw).
  reflexivity.
Qed.

Lemma expiry_enabled now w i t :
  timer (temp_permission (engine w)) = Some i ->
  threads w !! i = Some t ->
  stage t = Waiting ->
  finished t = false ->
  due t <= now ->
  is_Some (expiry now w).
Proof.
  intros Hi Hl Hs Hf Hdue.
  unfold expiry, timer_wake, timer_run. rewrite Hi, Hl, Hs, Hf.
  rewrite (proj2 (Z.leb_le _ _) Hdue). simpl.
  rewrite (lookup_alter_timer _ _ _ _ _ Hl).
  rewrite decide_True by reflexivity. simpl.
  eexists. reflexivity.
Qed.

(** The timer started by [grant] is the manager's timer; it waits, not
    cancelled, until the expiry time. *)
Lemma grant_starts_timer now d cb tp ths :
  let r := grant now d cb tp ths in
  exists i,
    timer (fst r) = Some i /\
    snd r !! i = Some (mkTimer (now + seconds d) false Waiting).
Proof.
  unfold grant. simpl. eexists. split; [reflexivity|].
  apply list_lookup_middle. reflexivity.
Qed.

(** ** Changing mode *)

(** C5. [set_mode(m)] with [m] a mode of the document returns and sets both
    [current_mode] and [base_mode] to [m]; if a temporary grant is valid at
    that time it is revoked (the manager is inactive, and its timer, when
    still waiting, never runs [_expire]); no later step of a timer thread
    changes either mode.  With a name that is not a mode of the document it
    raises [ValueError] and the state is the one before the call. *)
Theorem set_mode_is_permanent (now : Z) (m : string) (w : World) :
  (is_Some (modes (policy (engine w)) !! m) ->
   let r := set_mode now m w in
   fst r = Return () /\
   current_mode (engine (snd r)) = m /\
   base_mode (engine (snd r)) = m /\
   (is_valid now (temp_permission (engine w)) = true ->
    is_active (temp_permission (engine (snd r))) = false /\
    expiry_time (temp_permission (engine (snd r))) = None /\
    timer (temp_permission (engine (snd r))) = None /\
    forall i t,
      timer (temp_permission (engine w)) = Some i ->
      threads w !! i = Some t ->
      stage t = Waiting ->
      forall tr w', run tr (snd r) = Some w' -> timer_run i w' = None) /\
   (forall tr w',
      automatic tr ->
      run tr (snd r) = Some w' ->
      current_mode (engine w') = m /\ base_mode (engine w') = m)) /\
  (modes (policy (engine w)) !! m = None ->
   set_mode now m w = (Raise (ValueError ("Invalid mode: " +:+ m)), w)).
Proof.
  unfold set_mode. split.
  - intros [x Hx]. rewrite Hx. simpl.
    split; [reflexivity|]. split; [reflexivity|]. split; [reflexivity|].
    split.
    + intros Hv. rewrite Hv. simpl.
      split; [reflexivity|]. split; [reflexivity|]. split; [reflexivity|].
      intros i t Hi Hl Hst tr w' Hrun. rewrite Hi in Hrun.
      eapply (stopped_never_fires tr _ w' i (cancel t)); [| |exact Hrun].
      * simpl. rewrite (lookup_alter_timer _ _ _ _ _ Hl).
        rewrite decide_True by reflexivity. reflexivity.
      * split; simpl; [reflexivity | congruence].
    + intros tr w' Hauto Hrun.
      apply (automatic_keeps_mode tr _ w' m Hauto Hrun); reflexivity.
  - intros Hx. rewrite Hx. reflexivity.
Qed.

(** In the same window [set_mode] leaves the lapsed grant to its timer, which
    then finds [base_mode] already set to the new mode. *)
Example set_mode_on_lapsed_grant :
  (fun w => (current_mode (engine w), base_mode (engine w),
             is_active (temp_permission (engine w))))
    <$> run [(0, GrantTemporary 10); (seconds 10, SetMode "EMERGENCY");
             (seconds 10, TimerWake 0%nat); (seconds 10, TimerRun 0%nat)]
          (init ops_policy)
  = Some ("EMERGENCY", "EMERGENCY", false).
Proof. vm_compute. reflexivity. Qed.

Lemma set_mode_is_permanent_witness :
  let w := snd (grant_temporary_emergency 0 10 (init ops_policy)) in
  let w1 := snd (set_mode 1 "EMERGENCY" w) in
  let w2 := mkWorld (engine w1) [mkTimer (seconds 10) true Done] in
  is_Some (modes (policy (engine w)) !! "EMERGENCY") /\
  is_valid 1 (temp_permission (engine w)) = true /\
  automatic [(seconds 10, TimerWake 0%nat)] /\
  run [(seconds 10, TimerWake 0%nat)] w1 = Some w2 /\
  (current_mode (engine w2) = "EMERGENCY" /\
   base_mode (engine w2) = "EMERGENCY") /\
  modes (policy (engine w)) !! "DEBUG" = None /\
  set_mode 1 "DEBUG" w = (Raise (ValueError "Invalid mode: DEBUG"), w).
Proof.
  intros w w1 w2.
  assert (Hm : is_Some (modes (policy (engine w)) !! "EMERGENCY")).
  { eexists. vm_compute. reflexivity. }
  assert (Hv : is_valid 1 (temp_permission (engine w)) = true).
  { vm_compute. reflexivity. }
  assert (Ha : automatic [(seconds 10, TimerWake 0%nat)]).
  { repeat constructor. }
  assert (Hrun : run [(seconds 10, TimerWake 0%nat)] w1 = Some w2).
  { vm_compute. reflexivity. }
  assert (Hn : modes (policy (engine w)) !! "DEBUG" = None).
  { vm_compute. reflexivity. }
  destruct (set_mode_is_permanent 1 "EMERGENCY" w) as [Hok _].
  destruct (Hok Hm) as (_ & _ & _ & _ & Hauto).
  destruct (set_mode_is_permanent 1 "DEBUG" w) as [_ Herr].
  repeat (split; [assumption|]).
  split; [exact (Hauto _ _ Ha Hrun)|].
  split; [exact Hn | exact (Herr Hn)].
Defined.

(** ** Granting *)

Lemma step_keeps_emergency now op w w' :
  is_set_mode_op op = false ->
  current_mode (engine w) = "EMERGENCY" ->
  base_mode (engine w) = "EMERGENCY" ->
  step now op w = Some w' ->
  current_mode (engine w') = "EMERGENCY" /\
  base_mode (engine w') = "EMERGENCY".
Proof.
  intros Hop Hc Hb H.
  step_paths H; try discriminate Hop;
    try (split; first [assumption | reflexivity]).
  unfold _expire.
  destruct (on_expiry_callback _) as [[]|]; simpl; split; assumption.
Qed.

Lemma run_keeps_emergency tr w w' :
  Forall (fun ev => is_set_mode_op (snd ev) = false) tr ->
  run tr w = Some w' ->
  current_mode (engine w) = "EMERGENCY" ->
  base_mode (engine w) = "EMERGENCY" ->
  current_mode (engine w') = "EMERGENCY" /\
  base_mode (engine w') = "EMERGENCY".
Proof.
  intros Hall. revert w.
  induction Hall as [|[now op] tr Hop _ IH]; intros w Hrun Hc Hb;
    simpl in Hrun.
  - injection Hrun as <-. split; assumption.
  - destruct (step now op w) as [w1|] eqn:Hs; [|discriminate].
    destruct (step_keeps_emergency now op w w1 Hop Hc Hb Hs) as [Hc1 Hb1].
    apply (IH w1 Hrun Hc1 Hb1).
Qed.

(** C10. When [grant_temporary_emergency] is called with [current_mode]
    already "EMERGENCY" (a grant is in force), [base_mode] becomes
    "EMERGENCY" whatever it was.  From then on a revocation leaves
    [current_mode] at "EMERGENCY", so does the expiry of the new grant (which
    does happen once its time has come), and so does any sequence of steps
    without a [set_mode]: the mode in force before the first grant is lost. *)
Theorem second_grant_loses_base_mode (now d : Z) (w : World) :
  current_mode (engine w) = "EMERGENCY" ->
  let w2 := snd (grant_temporary_emergency now d w) in
  base_mode (engine w2) = "EMERGENCY" /\
  current_mode (engine w2) = "EMERGENCY" /\
  is_active (temp_permission (engine w2)) = true /\
  current_mode (engine (snd (revoke_temporary_emergency w2))) = "EMERGENCY" /\
  (forall now', now + seconds d <= now' -> is_Some (expiry now' w2)) /\
  (forall now' w3,
      expiry now' w2 = Some w3 ->
      current_mode (engine w3) = "EMERGENCY" /\
      is_active (temp_permission (engine w3)) = false) /\
  (forall tr w3,
      Forall (fun ev => is_set_mode_op (snd ev) = false) tr ->
      run tr w2 = Some w3 ->
      current_mode (engine w3) = "EMERGENCY" /\
      base_mode (engine w3) = "EMERGENCY").
Proof.
  intros Hc w2.
  assert (Hb2 : base_mode (engine w2) = "EMERGENCY") by exact Hc.
  assert (Hc2 : current_mode (engine w2) = "EMERGENCY") by reflexivity.
  split; [exact Hb2|]. split; [exact Hc2|]. split; [reflexivity|].
  split; [exact Hb2|]. split; [|split].
  - intros now' Hdue.
    destruct (grant_starts_timer now d (Some RevertToBase)
                (temp_permission (engine w)) (threads w)) as (i & Hi & Hl).
    apply (expiry_enabled now' w2 i _ Hi Hl); [reflexivity | reflexivity |].
    exact Hdue.
  - intros now' w3 He. rewrite (expiry_engine _ _ _ He).
    split; [exact Hb2 | reflexivity].
  - intros tr w3 Hall Hrun.
    exact (run_keeps_emergency tr w2 w3 Hall Hrun Hc2 Hb2).
Qed.

Lemma second_grant_loses_base_mode_witness :
  let w1 := snd (grant_temporary_emergency 0 10 (init ops_policy)) in
  let w2 := snd (grant_temporary_emergency 1 10 w1) in
  base_mode (engine w1) = "NORMAL" /\
  current_mode (engine w1) = "EMERGENCY" /\
  base_mode (engine w2) = "EMERGENCY" /\
  current_mode (engine (snd (revoke_temporary_emergency w2))) = "EMERGENCY".
Proof.
  intros w1 w2.
  assert (Hc : current_mode (engine w1) = "EMERGENCY") by reflexivity.
  destruct (second_grant_loses_base_mode 1 10 w1 Hc) as (Hb & _ & _ & Hr & _).
  split; [reflexivity|]. split; [exact Hc|]. split; [exact Hb | exact Hr].
Defined.

Example second_grant_then_expiry :
  (fun w => (current_mode (engine w), base_mode (engine w)))
    <$> run [(0, GrantTemporary 10); (1, GrantTemporary 10);
             (seconds 11, TimerWake 1%nat); (seconds 11, TimerRun 1%nat)]
          (init ops_policy)
  = Some ("EMERGENCY", "EMERGENCY").
Proof. vm_compute. reflexivity. Qed.

(** C3, counterexample. [grant_temporary_emergency(0)] on a fresh engine
    returns and moves the engine to "EMERGENCY". *)
Lemma grant_rejects_non_positive_fails : ~ grant_rejects_non_positive.
Proof.
  intros H.
  destruct (H 0 0 (init ops_policy) ltac:(lia)) as ([x Hx] & _).
  vm_compute in Hx. discriminate Hx.
Qed.

Example grant_zero_changes_mode :
  (fun w => (current_mode (engine w), base_mode (engine w),
             is_active (temp_permission (engine w)),
             expiry_time (temp_permission (engine w))))
    (snd (grant_temporary_emergency 0 0 (init ops_policy)))
  = ("EMERGENCY", "NORMAL", true, Some 0).
Proof. vm_compute. reflexivity. Qed.

(** C3, amended. The engine does not check the sign of the duration: with
    a duration of zero or less for which [now + duration] is still a
    [datetime], [grant_temporary_emergency] returns, stores the previous
    [current_mode] in [base_mode], sets [current_mode] to "EMERGENCY" and
    marks the grant active with [expiry_time = now + duration], a time
    already reached (so [is_valid] is false and the timer is due at once).
    The rejection with no state change is the one of the transport layer,
    whose request model bounds the duration to 1..300. *)
Theorem grant_accepts_non_positive (now d : Z) (w : World) :
  d <= 0 ->
  representable now ->
  representable (now + seconds d) ->
  let r := grant_temporary_emergency now d w in
  fst r = Return () /\
  base_mode (engine (snd r)) = current_mode (engine w) /\
  current_mode (engine (snd r)) = "EMERGENCY" /\
  is_active (temp_permission (engine (snd r))) = true /\
  expiry_time (temp_permission (engine (snd r))) = Some (now + seconds d) /\
  is_valid now (temp_permission (engine (snd r))) = false /\
  is_Some (expiry now (snd r)) /\
  grant_temporary_permission now d w = (Http422, w).
Proof.
  intros Hd _ _ r.
  split; [reflexivity|]. split; [reflexivity|]. split; [reflexivity|].
  split; [reflexivity|]. split; [reflexivity|]. split; [|split].
  - unfold is_valid. simpl. apply Z.ltb_ge. unfold seconds. lia.
  - destruct (grant_starts_timer now d (Some RevertToBase)
                (temp_permission (engine w)) (threads w)) as (i & Hi & Hl).
    apply (expiry_enabled now (snd r) i _ Hi Hl); [reflexivity | reflexivity |].
    simpl. unfold seconds. lia.
  - unfold grant_temporary_permission, temporary_permission_request.
    rewrite (proj2 (Z.leb_gt 1 d)) by lia. reflexivity.
Qed.

Lemma grant_accepts_non_positive_witness :
  -5 <= 0 /\
  representable (seconds 7) /\
  representable (seconds 7 + seconds (-5)) /\
  current_mode (engine (snd (grant_temporary_emergency (seconds 7) (-5)
                               (init ops_policy)))) = "EMERGENCY" /\
  grant_temporary_permission (seconds 7) (-5) (init ops_policy)
  = (Http422, init ops_policy).
Proof.
  assert (Hd : -5 <= 0) by lia.
  assert (Hn : representable (seconds 7)).
  { vm_compute. split; discriminate. }
  assert (He : representable (seconds 7 + seconds (-5))).
  { vm_compute. split; discriminate. }
  destruct (grant_accepts_non_positive (seconds 7) (-5) (init ops_policy)
              Hd Hn He)
    as (_ & _ & Hc & _ & _ & _ & _ & Hh).
  split; [exact Hd|]. split; [exact Hn|]. split; [exact He|].
  split; [exact Hc | exact Hh].
Defined.

(** Beyond that range line 57 raises after the modes and [is_active] are
    written: from a fresh engine the grant is left active in "EMERGENCY"
    with no expiry time and no timer. *)
Example failed_grant_leaves_emergency :
  (fun w => (current_mode (engine w), base_mode (engine w),
             is_active (temp_permission (engine w)),
             expiry_time (temp_permission (engine w)),
             timer (temp_permission (engine w)), threads w))
    (failed_grant_temporary_emergency (init ops_policy))
  = ("EMERGENCY", "NORMAL", true, None, None, []).
Proof. vm_compute. reflexivity. Qed.

(** ** Extending *)

(** C6, counterexample. A grant of 3 s extended by 10 s half a second later
    has 2.5 s left, and the new grant lasts [int(12.5) = 12] seconds. *)
Lemma extend_adds_exactly_fails : ~ extend_adds_exactly.
Proof.
  intros H.
  specialize (H 500000 10
                (snd (grant_temporary_emergency 0 3 (init ops_policy)))
                2500000 ltac:(lia) eq_refl eq_refl).
  vm_compute in H. discriminate H.
Qed.

Example extend_truncates :
  remaining_time 500000
    (temp_permission
       (engine (snd (extend_temporary_emergency 500000 10
                       (snd (grant_temporary_emergency 0 3
                               (init ops_policy)))))))
  = Some (seconds 12).
Proof. vm_compute. reflexivity. Qed.

(** A grant past its expiry time whose timer has not run yet is not
    extended. *)
Example extend_lapsed_is_noop :
  extend_temporary_emergency (seconds 10) 10
    (snd (grant_temporary_emergency 0 10 (init ops_policy)))
  = (Return (), snd (grant_temporary_emergency 0 10 (init ops_policy))).
Proof. vm_compute. reflexivity. Qed.

Lemma step_extend_base now op w w' :
  is_extend_op op = true ->
  step now op w = Some w' ->
  base_mode (engine w') = base_mode (engine w) /\
  current_mode (engine w') = current_mode (engine w).
Proof.
  intros Hop H. step_paths H; try discriminate Hop; split; reflexivity.
Qed.

Lemma run_extend_base tr w w' :
  Forall (fun ev => is_extend_op (snd ev) = true) tr ->
  run tr w = Some w' ->
  base_mode (engine w') = base_mode (engine w) /\
  current_mode (engine w') = current_mode (engine w).
Proof.
  intros Hall. revert w.
  induction Hall as [|[now op] tr Hop _ IH]; intros w Hrun; simpl in Hrun.
  - injection Hrun as <-. split; reflexivity.
  - destruct (step now op w) as [w1|] eqn:Hs; [|discriminate].
    destruct (step_extend_base now op w w1 Hop Hs) as [Hb Hc].
    destruct (IH w1 Hrun) as [Hb' Hc']. split; congruence.
Qed.

(** C6, amended. If a grant is valid with [r] microseconds left when
    [extend_temporary_emergency(a)] is called with [a > 0], and [a] and [r]
    are at most 10^9 seconds (so the float sum is exact to the microsecond)
    and the new expiry time is a [datetime], the expiry is rescheduled so
    that the time left is [max(0, r) + a] seconds cut down to a whole number
    of seconds (less than one second is lost); [base_mode] and
    [current_mode] are unchanged, also across any number of extensions.  If
    no grant is valid the call returns, changes nothing, and the status
    still reports no active grant. *)
Theorem extend_adds_whole_seconds (now a : Z) (w : World) :
  0 < a ->
  (forall r,
      is_valid now (temp_permission (engine w)) = true ->
      remaining_time now (temp_permission (engine w)) = Some r ->
      exact_seconds a ->
      r <= seconds 1000000000 ->
      representable now ->
      representable (now + r + seconds a) ->
      let w' := snd (extend_temporary_emergency now a w) in
      let total := Z.quot (Z.max 0 r + seconds a) 1000000 in
      fst (extend_temporary_emergency now a w) = Return ()
      /\ remaining_time now (temp_permission (engine w')) = Some (seconds total)
      /\ expiry_time (temp_permission (engine w')) = Some (now + seconds total)
      /\ Z.max 0 r + seconds a - 1000000 < seconds total <= Z.max 0 r + seconds a
      /\ base_mode (engine w') = base_mode (engine w)
      /\ current_mode (engine w') = current_mode (engine w)) /\
  (forall tr w',
      Forall (fun ev => is_extend_op (snd ev) = true) tr ->
      run tr w = Some w' ->
      base_mode (engine w') = base_mode (engine w)) /\
  (is_valid now (temp_permission (engine w)) = false ->
   extend_temporary_emergency now a w = (Return (), w) /\
   status_is_active
     (get_temporary_status now
        (engine (snd (extend_temporary_emergency now a w)))) = false).
Proof.
  intros Ha. split; [|split].
  - intros r Hv Hr _ _ _ _ w' total.
    assert (Hr0 : 0 <= r).
    { unfold remaining_time in Hr.
      destruct (negb _); [discriminate|].
      destruct (expiry_time _); [|discriminate].
      injection Hr as <-. lia. }
    assert (Hbounds : Z.max 0 r + seconds a - 1000000 < seconds total
                      <= Z.max 0 r + seconds a).
    { subst total. unfold seconds. Z.quot_rem_to_equations. lia. }
    assert (Hfst : fst (extend_temporary_emergency now a w) = Return ()).
    { unfold extend_temporary_emergency, grant. rewrite Hv. reflexivity. }
    split; [exact Hfst|].
    assert (Hw'' : w' = snd (extend_temporary_emergency now a w))
      by reflexivity.
    unfold extend_temporary_emergency in Hw''.
    rewrite Hv, Hr in Hw''. simpl in Hw''.
    replace (r + seconds a) with (Z.max 0 r + seconds a) in Hw'' by lia.
    fold total in Hw''. rewrite Hw''. simpl.
    split; [|split; [reflexivity|split; [exact Hbounds|split; reflexivity]]].
    unfold remaining_time. simpl. f_equal. unfold seconds in *. lia.
  - intros tr w' Hall Hrun.
    apply (run_extend_base tr w w' Hall Hrun).
  - intros Hv. unfold extend_temporary_emergency. rewrite Hv. simpl.
    split; [reflexivity | exact Hv].
Qed.

Lemma extend_adds_whole_seconds_witness :
  let w := snd (grant_temporary_emergency 0 3 (init ops_policy)) in
  0 < 10 /\
  is_valid 500000 (temp_permission (engine w)) = true /\
  remaining_time 500000 (temp_permission (engine w)) = Some 2500000 /\
  exact_seconds 10 /\
  2500000 <= seconds 1000000000 /\
  representable 500000 /\
  representable (500000 + 2500000 + seconds 10) /\
  remaining_time 500000
    (temp_permission (engine (snd (extend_temporary_emergency 500000 10 w))))
  = Some (seconds (Z.quot (Z.max 0 2500000 + seconds 10) 1000000)).
Proof.
  intros w.
  assert (Ha : 0 < 10) by lia.
  assert (Hv : is_valid 500000 (temp_permission (engine w)) = true)
    by reflexivity.
  assert (Hr : remaining_time 500000 (temp_permission (engine w))
               = Some 2500000) by reflexivity.
  assert (Hx : exact_seconds 10) by (vm_compute; split; discriminate).
  assert (Hb : 2500000 <= seconds 1000000000) by (vm_compute; discriminate).
  assert (Hn : representable 500000) by (vm_compute; split; discriminate).
  assert (He : representable (500000 + 2500000 + seconds 10))
    by (vm_compute; split; discriminate).
  destruct (extend_adds_whole_seconds 500000 10 w Ha) as [Hext _].
  destruct (Hext 2500000 Hv Hr Hx Hb Hn He) as (_ & Hrem & _).
  split; [exact Ha|]. split; [exact Hv|]. split; [exact Hr|].
  split; [exact Hx|]. split; [exact Hb|]. split; [exact Hn|].
  split; [exact He | exact Hrem].
Defined.

(** * Further properties of the manager, the engine and the handlers *)

(** ** Validity and remaining time *)

(** X1. For a manager whose flags agree, [is_valid] holds exactly when
    [remaining_time] reports a positive time; [remaining_time] never reports
    a negative time; and a permission valid at some time was valid at every
    earlier time, so once the clock has passed the expiry time [is_valid]
    stays false. *)
Theorem valid_iff_time_remains (now : Z) (tp : TemporaryPermissionManager) :
  manager_consistent tp ->
  (is_valid now tp = true <->
   exists r, remaining_time now tp = Some r /\ 0 < r) /\
  (forall r, remaining_time now tp = Some r -> 0 <= r) /\
  (forall now', now <= now' -> is_valid now' tp = true ->
                is_valid now tp = true).
Proof.
  unfold manager_consistent, is_valid, remaining_time.
  intros Hc. split; [split|split].
  - intros Hv. apply andb_prop in Hv as [Ha Hlt].
    destruct (Hc Ha) as [e He]. rewrite Ha, He in *. simpl.
    exists (Z.max 0 (e - now)). split; [reflexivity | lia].
  - intros (r & Hr & Hpos).
    destruct (is_active tp); simpl in *; [|discriminate].
    destruct (expiry_time tp) as [e|]; [|discriminate].
    injection Hr as <-. apply Z.ltb_lt. lia.
  - intros r Hr.
    destruct (is_active tp); simpl in *; [|discriminate].
    destruct (expiry_time tp) as [e|]; [|discriminate].
    injection Hr as <-. lia.
  - intros now' Hle Hv. apply andb_prop in Hv as [Ha Hlt].
    rewrite Ha. simpl. destruct (expiry_time tp) as [e|]; [|reflexivity].
    apply Z.ltb_lt. apply Z.ltb_lt in Hlt. lia.
Qed.

Lemma valid_iff_time_remains_witness :
  let tp := temp_permission
              (engine (snd (grant_temporary_emergency 0 10
                              (init ops_policy)))) in
  manager_consistent tp /\
  (is_valid (seconds 4) tp = true <->
   exists r, remaining_time (seconds 4) tp = Some r /\ 0 < r) /\
  is_valid (seconds 4) tp = true.
Proof.
  intros tp.
  assert (Hc : manager_consistent tp).
  { intros _. eexists. reflexivity. }
  destruct (valid_iff_time_remains (seconds 4) tp Hc) as (Hiff & _ & _).
  split; [exact Hc|]. split; [exact Hiff|]. reflexivity.
Defined.

(** ** The manager and its timer *)







Lemma step_inactive_no_timer now op w w' :
  (is_active (temp_permission (engine w)) = false ->
   timer (temp_permission (engine w)) = None /\
   expiry_time (temp_permission (engine w)) = None) ->
  step now op w = Some w' ->
  is_active (temp_permission (engine w')) = false ->
  timer (temp_permission (engine w')) = None /\
  expiry_time (temp_permission (engine w')) = None.
Proof.
  intros IH H.
  step_paths H; try (intros Ha; first [discriminate Ha | split; reflexivity]);
    try exact IH.
  unfold _expire.
  destruct (on_expiry_callback _) as [[]|]; simpl; split; reflexivity.
Qed.

(** X2. In every state the engine reaches, also after grants and extensions
    that raised, a manager whose [is_active] flag is off references no timer
    and keeps no expiry time, so that [is_valid] is false and
    [remaining_time] is [None] at every time. *)
Theorem inactive_grant_has_no_timer (p : Policy) (w : World) :
  reaches p w ->
  is_active (temp_permission (engine w)) = false ->
  timer (temp_permission (engine w)) = None /\
  expiry_time (temp_permission (engine w)) = None /\
  forall now,
    is_valid now (temp_permission (engine w)) = false /\
    remaining_time now (temp_permission (engine w)) = None.
Proof.
  intros Hr Hoff.
  assert (Hinv : is_active (temp_permission (engine w)) = false ->
                 timer (temp_permission (engine w)) = None /\
                 expiry_time (temp_permission (engine w)) = None).
  { clear Hoff.
    induction Hr as [|now op w w' _ IH Hs|w _ _|now w _ _ _|now nd w _ _ _].
    - intros _. split; reflexivity.
    - exact (step_inactive_no_timer now op w w' IH Hs).
    - intros Ha. discriminate Ha.
    - intros Ha. discriminate Ha.
    - intros Ha. discriminate Ha. }
  destruct (Hinv Hoff) as [Ht He].
  split; [exact Ht|]. split; [exact He|].
  intros now. unfold is_valid, remaining_time. rewrite Hoff.
  split; reflexivity.
Qed.

Lemma inactive_grant_has_no_timer_witness :
  let w := snd (revoke_temporary_emergency
                  (failed_grant_temporary_emergency
                     (snd (grant_temporary_emergency 0 10
                             (init ops_policy))))) in
  reaches ops_policy w /\
  is_active (temp_permission (engine w)) = false /\
  timer (temp_permission (engine w)) = None /\
  expiry_time (temp_permission (engine w)) = None.
Proof.
  intros w.
  assert (Hr : reaches ops_policy w).
  { apply (reaches_step ops_policy 1 RevokeTemporary
             (failed_grant_temporary_emergency
                (snd (grant_temporary_emergency 0 10 (init ops_policy)))));
      [|reflexivity].
    apply reaches_failed_grant.
    apply (reaches_step ops_policy 0 (GrantTemporary 10) (init ops_policy));
      [constructor | reflexivity]. }
  assert (Hoff : is_active (temp_permission (engine w)) = false)
    by reflexivity.
  destruct (inactive_grant_has_no_timer ops_policy w Hr Hoff)
    as (Ht & He & _).
  split; [exact Hr|]. split; [exact Hoff|]. split; [exact Ht | exact He].
Defined.

(** ** Grant, then expiry or revocation *)

Lemma expiry_not_due now w i t :
  timer (temp_permission (engine w)) = Some i ->
  threads w !! i = Some t ->
  stage t = Waiting ->
  finished t = false ->
  now < due t ->
  expiry now w = None.
Proof.
  intros Hi Hl Hs Hf Hdue.
  unfold expiry, timer_wake. rewrite Hi, Hl, Hs, Hf.
  rewrite (proj2 (Z.leb_gt _ _) Hdue). reflexivity.
Qed.

(** X4. On the state right after [grant_temporary_emergency(d)] at time
    [now], with [d] in the range 1..300 the transport layer admits and
    whatever the state before the call: the timer the manager now references
    cannot leave its wait and run [_expire] before [now + d] seconds; the
    permission of this state is valid at every time from [now] up to then;
    and when that timer does so at or after [now + d], with no other step in
    between, the grant is inactive and [current_mode] and [base_mode] are
    both the mode that was current before the grant. *)
Theorem grant_then_expiry (now d : Z) (w : World) :
  temporary_permission_request d = true ->
  let w2 := snd (grant_temporary_emergency now d w) in
  (forall now', now' < now + seconds d -> expiry now' w2 = None) /\
  (forall now', now <= now' < now + seconds d ->
     is_valid now' (temp_permission (engine w2)) = true /\
     current_mode (engine w2) = "EMERGENCY") /\
  (forall now', now + seconds d <= now' ->
     exists w3,
       expiry now' w2 = Some w3 /\
       current_mode (engine w3) = current_mode (engine w) /\
       base_mode (engine w3) = current_mode (engine w) /\
       is_active (temp_permission (engine w3)) = false /\
       timer (temp_permission (engine w3)) = None).
Proof.
  intros _ w2.
  destruct (grant_starts_timer now d (Some RevertToBase)
              (temp_permission (engine w)) (threads w)) as (i & Hi & Hl).
  split; [|split].
  - intros now' Hlt.
    apply (expiry_not_due now' w2 i _ Hi Hl); [reflexivity | reflexivity |].
    exact Hlt.
  - intros now' [Hlo Hhi]. split; [|reflexivity].
    unfold is_valid. simpl. apply Z.ltb_lt. exact Hhi.
  - intros now' Hdue.
    destruct (expiry_enabled now' w2 i _ Hi Hl) as [w3 Hw3];
      [reflexivity | reflexivity | exact Hdue |].
    exists w3. split; [exact Hw3|].
    rewrite (expiry_engine _ _ _ Hw3). repeat split.
Qed.

Lemma grant_then_expiry_witness :
  let w2 := snd (grant_temporary_emergency 0 5 (init ops_policy)) in
  temporary_permission_request 5 = true /\
  seconds 4 < 0 + seconds 5 /\
  expiry (seconds 4) w2 = None /\
  0 + seconds 5 <= seconds 5 /\
  exists w3,
    expiry (seconds 5) w2 = Some w3 /\
    current_mode (engine w3) = "NORMAL" /\
    base_mode (engine w3) = "NORMAL" /\
    is_active (temp_permission (engine w3)) = false /\
    timer (temp_permission (engine w3)) = None.
Proof.
  intros w2.
  assert (Hd : temporary_permission_request 5 = true) by reflexivity.
  assert (H4 : seconds 4 < 0 + seconds 5) by (vm_compute; reflexivity).
  assert (H5 : 0 + seconds 5 <= seconds 5) by (vm_compute; discriminate).
  destruct (grant_then_expiry 0 5 (init ops_policy) Hd)
    as (Hearly & _ & Hdue).
  split; [exact Hd|]. split; [exact H4|]. split; [exact (Hearly _ H4)|].
  split; [exact H5 | exact (Hdue _ H5)].
Defined.



(** X6. A grant or a valid extension replaces the scheduled timer: the
    manager then references a new timer, and the previous one, when it was
    still in its waiting stage, never runs [_expire]. *)
Theorem replaced_timer_never_fires (now d a : Z) (w : World) (i : nat)
    (t : Timer) :
  timer (temp_permission (engine w)) = Some i ->
  threads w !! i = Some t ->
  stage t = Waiting ->
  let wg := snd (grant_temporary_emergency now d w) in
  let we := snd (extend_temporary_emergency now a w) in
  (timer (temp_permission (engine wg)) = Some (length (threads w)) /\
   length (threads w) <> i /\
   forall tr w', run tr wg = Some w' -> timer_run i w' = None) /\
  (is_valid now (temp_permission (engine w)) = true ->
   timer (temp_permission (engine we)) = Some (length (threads w)) /\
   forall tr w', run tr we = Some w' -> timer_run i w' = None).
Proof.
  intros Hi Hl Hst wg we.
  assert (Hlt : (i < length (threads w))%nat).
  { apply lookup_lt_is_Some. eexists. exact Hl. }
  assert (Hold : forall ths new,
             ths = (alter cancel i (threads w) ++ [new])%list ->
             ths !! i = Some (cancel t)).
  { intros ths new ->. apply lookup_app_l_Some.
    rewrite (lookup_alter_timer _ _ _ _ _ Hl).
    rewrite decide_True by reflexivity. reflexivity. }
  assert (Hstop : stopped (cancel t)).
  { split; simpl; [reflexivity | congruence]. }
  split.
  - subst wg. unfold grant_temporary_emergency, grant. rewrite Hi. simpl.
    rewrite length_alter.
    split; [reflexivity|]. split; [lia|].
    intros tr w' Hrun.
    eapply (stopped_never_fires tr _ w' i (cancel t)); [| exact Hstop | exact Hrun].
    simpl. eapply Hold. reflexivity.
  - intros Hv. subst we. unfold extend_temporary_emergency, grant.
    rewrite Hv, Hi. simpl. rewrite length_alter.
    split; [reflexivity|].
    intros tr w' Hrun.
    eapply (stopped_never_fires tr _ w' i (cancel t)); [| exact Hstop | exact Hrun].
    simpl. eapply Hold. reflexivity.
Qed.

Lemma replaced_timer_never_fires_witness :
  let w := snd (grant_temporary_emergency 0 10 (init ops_policy)) in
  let t := mkTimer (seconds 10) false Waiting in
  let we := snd (extend_temporary_emergency (seconds 2) 10 w) in
  timer (temp_permission (engine w)) = Some 0%nat /\
  threads w !! 0%nat = Some t /\
  stage t = Waiting /\
  is_valid (seconds 2) (temp_permission (engine w)) = true /\
  timer (temp_permission (engine we)) = Some 1%nat /\
  timer_run 0 we = None.
Proof.
  intros w t we.
  assert (Hi : timer (temp_permission (engine w)) = Some 0%nat) by reflexivity.
  assert (Hl : threads w !! 0%nat = Some t) by reflexivity.
  assert (Hs : stage t = Waiting) by reflexivity.
  assert (Hv : is_valid (seconds 2) (temp_permission (engine w)) = true)
    by reflexivity.
  destruct (replaced_timer_never_fires (seconds 2) 10 10 w 0%nat t Hi Hl Hs)
    as [_ Hext].
  destruct (Hext Hv) as [Hnew Hnever].
  split; [exact Hi|]. split; [exact Hl|]. split; [exact Hs|].
  split; [exact Hv|]. split; [exact Hnew|]. exact (Hnever [] we eq_refl).
Defined.

(** ** What the pipeline allows *)

(** X7. In an engine state whose manager keeps an [expiry_time] whenever
    [is_active] is set, [validate] returns exactly for the tools that are
    not globally blocked, are in the list [get_allowed_tools] returns and
    are not in the list [get_blocked_tools] returns: a tool listed as both
    allowed and blocked in the current mode is refused. *)
Theorem validate_allows_iff_listed (e : PolicyEngine) (now : Z)
    (tool : string) (args context : option (gmap string Any)) :
  manager_consistent (temp_permission e) ->
  (validate now tool args context e = Return true <->
   (tool ∉ always_blocked (global_rules (policy e))) /\
   exists al bl,
     get_allowed_tools e = Return al /\
     get_blocked_tools e = Return bl /\
     tool ∈ al /\ (tool ∉ bl)).
Proof.
  intros Hcons.
  unfold validate, get_allowed_tools, get_blocked_tools.
  destruct (modes (policy e) !! current_mode e) as [m|].
  - destruct (is_valid now (temp_permission e)) eqn:Hv.
    + destruct (remaining_when_valid now _ Hcons Hv) as (t & -> & _). simpl.
      repeat case_bool_decide; split;
        try discriminate; try (intros (? & ? & ? & ? & ? & ? & ?));
        simplify_eq; try contradiction; eauto 10.
    + repeat case_bool_decide; split;
        try discriminate; try (intros (? & ? & ? & ? & ? & ? & ?));
        simplify_eq; try contradiction; eauto 10.
  - case_bool_decide; split;
      try discriminate; intros (? & ? & ? & ? & ?); try contradiction;
      discriminate.
Qed.

Lemma validate_allows_iff_listed_witness :
  let e := engine (snd (grant_temporary_emergency 0 10 (init ops_policy))) in
  manager_consistent (temp_permission e) /\
  validate 1 "restart_service" None None e = Return true /\
  ("restart_service" ∉ always_blocked (global_rules (policy e))) /\
  exists al bl,
    get_allowed_tools e = Return al /\
    get_blocked_tools e = Return bl /\
    "restart_service" ∈ al /\ ("restart_service" ∉ bl).
Proof.
  intros e.
  assert (Hc : manager_consistent (temp_permission e)).
  { intros _. eexists. reflexivity. }
  assert (Hv : validate 1 "restart_service" None None e = Return true).
  { vm_compute. reflexivity. }
  split; [exact Hc|]. split; [exact Hv|].
  exact (proj1 (validate_allows_iff_listed e 1 "restart_service"
                  None None Hc) Hv).
Defined.

Lemma step_mode_known now op w w' :
  mode_known (policy (engine w)) (current_mode (engine w)) /\
  mode_known (policy (engine w)) (base_mode (engine w)) ->
  step now op w = Some w' ->
  mode_known (policy (engine w')) (current_mode (engine w')) /\
  mode_known (policy (engine w')) (base_mode (engine w')).
Proof.
  unfold mode_known. intros [Hc Hb] H.
  step_paths H; try (split; eauto; fail).
  unfold _expire.
  destruct (on_expiry_callback _) as [[]|]; simpl; split; assumption.
Qed.

Lemma reachable_mode_known p w :
  reachable p w ->
  mode_known p (current_mode (engine w)) /\
  mode_known p (base_mode (engine w)).
Proof.
  intros Hr.
  cut (policy (engine w) = p /\
       mode_known (policy (engine w)) (current_mode (engine w)) /\
       mode_known (policy (engine w)) (base_mode (engine w))).
  { intros (<- & H). exact H. }
  revert w Hr. apply reachable_invariant.
  - simpl. unfold mode_known. auto.
  - intros now op w1 w2 (Hpol & IH) Hs. split.
    + rewrite (step_policy _ _ _ _ Hs). exact Hpol.
    + apply (step_mode_known now op w1); assumption.
Qed.

(** X8. In every reachable state [current_mode] and [base_mode] are
    "NORMAL", "EMERGENCY" or a mode of the document; so when [validate] or
    [get_allowed_tools] raises [KeyError], the missing key is "NORMAL" or
    "EMERGENCY" and the document does not define it. *)
Theorem key_error_names_builtin_mode (p : Policy) (w : World) :
  reachable p w ->
  mode_known p (current_mode (engine w)) /\
  mode_known p (base_mode (engine w)) /\
  (forall now tool args context k,
      validate now tool args context (engine w) = Raise (KeyError k) ->
      (k = "NORMAL" \/ k = "EMERGENCY") /\ modes p !! k = None) /\
  (forall k,
      get_allowed_tools (engine w) = Raise (KeyError k) ->
      (k = "NORMAL" \/ k = "EMERGENCY") /\ modes p !! k = None).
Proof.
  intros Hr.
  pose proof (reachable_policy p w Hr) as Hp.
  destruct (reachable_mode_known p w Hr) as [Hc Hb].
  assert (Hmiss : modes p !! current_mode (engine w) = None ->
                  (current_mode (engine w) = "NORMAL" \/
                   current_mode (engine w) = "EMERGENCY")).
  { intros Hn. destruct Hc as [H|[H|[x Hx]]]; auto. congruence. }
  split; [exact Hc|]. split; [exact Hb|]. split.
  - intros now tool args context k. unfold validate. rewrite Hp.
    destruct (modes p !! current_mode (engine w)) as [m|] eqn:Hm.
    + unfold format_remaining. repeat case_match; intros Hk; simplify_eq.
    + case_bool_decide; intros Hk; simplify_eq. auto.
  - intros k. unfold get_allowed_tools. rewrite Hp.
    destruct (modes p !! current_mode (engine w)) as [m|] eqn:Hm;
      intros Hk; simplify_eq. auto.
Qed.

Lemma key_error_names_builtin_mode_witness :
  reachable safe_only_policy (init safe_only_policy) /\
  validate 0 "get_service_status" None None (engine (init safe_only_policy))
    = Raise (KeyError "NORMAL") /\
  ("NORMAL" = "NORMAL" \/ "NORMAL" = "EMERGENCY") /\
  modes safe_only_policy !! "NORMAL" = None.
Proof.
  assert (Hr : reachable safe_only_policy (init safe_only_policy)).
  { exists []. reflexivity. }
  assert (Hv : validate 0 "get_service_status" None None
                 (engine (init safe_only_policy)) = Raise (KeyError "NORMAL")).
  { vm_compute. reflexivity. }
  destruct (key_error_names_builtin_mode safe_only_policy
              (init safe_only_policy) Hr) as (_ & _ & Hk & _).
  split; [exact Hr|]. split; [exact Hv|].
  exact (Hk 0 "get_service_status" None None "NORMAL" Hv).
Defined.

(** ** The handlers *)

(** X9. [/tools/execute] runs a tool function only after [validate] has
    returned and only for a name of [tool_map]: when [validate] raises, or
    the name is unknown, the infrastructure is left as it was and no answer
    reports success; and an answer that reports success carries the value the
    tool function returned on the request's arguments. *)
Theorem execute_tool_runs_only_allowed (Infra : Type)
    (call_tool : string -> gmap string Any -> Infra -> ToolOutcome * Infra)
    (format_1f : Z -> string) (now : Z) (request : ToolRequest) (w : World)
    (infra : Infra) :
  let r := execute_tool Infra call_tool format_1f now request w infra in
  let v := validate now (req_tool_name request) (Some (req_arguments request))
             (req_context request) (engine w) in
  (forall x, v = Raise x ->
     snd r = infra /\
     forall body, fst r = Ok200 body ->
                  success body = false /\ policy_violation body = true) /\
  (req_tool_name request ∉ tool_map ->
     snd r = infra /\
     forall body, fst r = Ok200 body -> success body = false) /\
  (forall body, fst r = Ok200 body -> success body = true ->
     v = Return true /\
     req_tool_name request ∈ tool_map /\
     call_tool (req_tool_name request) (req_arguments request) infra
     = (ToolReturn (result body), snd r)).
Proof.
  intros r v. subst r v.
  unfold execute_tool, _execute_tool_function.
  destruct (if status_is_active _ then _ else _) as [z|x0].
  2:{ simpl. repeat split; intros; simplify_eq. }
  destruct (validate now (req_tool_name request) (Some (req_arguments request))
              (req_context request) (engine w)) as [b|x] eqn:Hv.
  - assert (Hb : b = true).
    { unfold validate in Hv. repeat case_match; simplify_eq; reflexivity. }
    subst b. split; [intros x Hx; discriminate Hx|].
    case_bool_decide as Hin; simpl.
    + destruct (call_tool _ _ infra) as [[val|msg|msg] infra'] eqn:Hc; simpl;
        (split; [intros Hn; contradiction|]);
        intros body Hbody Hs; simplify_eq; simpl in *;
          try discriminate; auto.
    + split; [intros _; split; [reflexivity|]; intros; simplify_eq;
              reflexivity|].
      intros body Hbody Hs. simplify_eq.
  - split; [|split].
    + intros x1 _. destruct x; simpl; split; try reflexivity;
        intros body Hbody; simplify_eq; split; reflexivity.
    + intros _. destruct x; simpl; split; try reflexivity;
        intros body Hbody; simplify_eq; reflexivity.
    + intros body Hbody Hs. destruct x; simpl in *; simplify_eq.
Qed.

Lemma execute_tool_runs_only_allowed_witness :
  let request := mkToolRequest "restart_service" ∅ None in
  let w := init ops_policy in
  let r := execute_tool (list string) log_tool plain_1f 0 request w [] in
  validate 0 (req_tool_name request) (Some (req_arguments request))
    (req_context request) (engine w)
  = Raise (PolicyViolation
             (mkViolation "restart_service" "NORMAL" BlockedInMode None)) /\
  snd r = [] /\
  forall body, fst r = Ok200 body ->
               success body = false /\ policy_violation body = true.
Proof.
  intros request w r.
  assert (Hv : validate 0 (req_tool_name request)
                 (Some (req_arguments request)) (req_context request)
                 (engine w)
               = Raise (PolicyViolation
                          (mkViolation "restart_service" "NORMAL"
                             BlockedInMode None))).
  { vm_compute. reflexivity. }
  destruct (execute_tool_runs_only_allowed (list string) log_tool plain_1f 0
              request w []) as [Hblocked _].
  split; [exact Hv|]. exact (Hblocked _ Hv).
Defined.

Example execute_tool_after_grant :
  execute_tool (list string) log_tool plain_1f 1
    (mkToolRequest "restart_service" (<["service" := JStr "web"]> ∅) None)
    (snd (grant_temporary_emergency 0 10 (init ops_policy))) []
  = (Ok200 (mkToolResponse true (JStr "restarted") None false None),
     ["restart_service"]).
Proof. vm_compute. reflexivity. Qed.

Example execute_tool_bad_arguments :
  execute_tool (list string) log_tool plain_1f 1
    (mkToolRequest "restart_service" ∅ None)
    (snd (grant_temporary_emergency 0 10 (init ops_policy))) []
  = (Ok200 (mkToolResponse false JNull
              (Some "Execution error: Invalid arguments for restart_service: missing argument")
              false None),
     []).
Proof. vm_compute. reflexivity. Qed.

(** X10. In an engine state whose current mode is a mode of the document
    and whose manager keeps an [expiry_time] whenever [is_active] is set,
    [/tools/execute] answers 200 whatever the request and whatever the tool
    functions do; the body reports a policy violation exactly when
    [validate] raised one, carries an error text exactly when it does not
    report success, and a blocked reason exactly when it reports a policy
    violation. *)
Theorem execute_tool_always_answers (Infra : Type)
    (call_tool : string -> gmap string Any -> Infra -> ToolOutcome * Infra)
    (format_1f : Z -> string) (w : World) (now : Z)
    (request : ToolRequest) (infra : Infra) :
  manager_consistent (temp_permission (engine w)) ->
  is_Some (modes (policy (engine w)) !! current_mode (engine w)) ->
  exists body,
    fst (execute_tool Infra call_tool format_1f now request w infra)
    = Ok200 body /\
    (policy_violation body = true <->
     exists x, validate now (req_tool_name request)
                 (Some (req_arguments request)) (req_context request)
                 (engine w) = Raise (PolicyViolation x)) /\
    (is_Some (error body) <-> success body = false) /\
    (is_Some (blocked_reason body) <-> policy_violation body = true).
Proof.
  intros Hcons [m Hm].
  pose proof (validate_decision (engine w) m now (req_tool_name request)
                (Some (req_arguments request)) (req_context request)
                Hcons Hm) as Hdec.
  unfold execute_tool, get_temporary_status. simpl.
  destruct (is_valid now (temp_permission (engine w))) eqn:Hv.
  - destruct (remaining_when_valid now _ Hcons Hv) as (t & -> & _). simpl.
    destruct (validate _ _ _ _ _) as [b|[v|k|msg|]]; simpl in Hdec;
      try discriminate Hdec.
    + destruct (_execute_tool_function _ _ _ _ _) as [[val|msg] infra'];
        eexists; (split; [reflexivity|]); simpl;
        repeat split; intros; try discriminate; try done;
        try (destruct H as [? ?]; discriminate); eauto.
    + eexists; (split; [reflexivity|]); simpl;
        repeat split; intros; try discriminate; try done; eauto.
  - destruct (validate _ _ _ _ _) as [b|[v|k|msg|]]; simpl in Hdec;
      try discriminate Hdec.
    + destruct (_execute_tool_function _ _ _ _ _) as [[val|msg] infra'];
        eexists; (split; [reflexivity|]); simpl;
        repeat split; intros; try discriminate; try done;
        try (destruct H as [? ?]; discriminate); eauto.
    + eexists; (split; [reflexivity|]); simpl;
        repeat split; intros; try discriminate; try done; eauto.
Qed.

Lemma execute_tool_always_answers_witness :
  manager_consistent (temp_permission (engine (init ops_policy))) /\
  is_Some (modes (policy (engine (init ops_policy)))
             !! current_mode (engine (init ops_policy))) /\
  exists body,
    fst (execute_tool (list string) log_tool plain_1f 0
           (mkToolRequest "delete_database" ∅ None) (init ops_policy) [])
    = Ok200 body /\
    (is_Some (error body) <-> success body = false).
Proof.
  assert (Hc : manager_consistent
                 (temp_permission (engine (init ops_policy)))).
  { intros Ha. discriminate Ha. }
  assert (Hm : is_Some (modes (policy (engine (init ops_policy)))
                          !! current_mode (engine (init ops_policy)))).
  { eexists. vm_compute. reflexivity. }
  split; [exact Hc|]. split; [exact Hm|].
  destruct (execute_tool_always_answers (list string) log_tool plain_1f
              (init ops_policy) 0
              (mkToolRequest "delete_database" ∅ None) [] Hc Hm)
    as (body & Hbody & _ & Herr & _).
  exists body. split; [exact Hbody | exact Herr].
Defined.

(** In the state a grant that raised leaves, the handler fails on its
    status line before [validate] is called. *)
Example execute_tool_after_failed_grant :
  fst (execute_tool (list string) log_tool plain_1f 1
         (mkToolRequest "get_service_status" ∅ None)
         (failed_grant_temporary_emergency (init ops_policy)) [])
  = Unhandled TypeError.
Proof. vm_compute. reflexivity. Qed.

(** X11. [/policy/set-mode] answers 200 with the requested mode and that
    mode's [allowed_tools] when the document defines the mode, the engine
    then being as after [set_mode]; otherwise it answers 400 with the text of
    the [ValueError] and the engine is untouched.  No exception leaves the
    handler. *)
Theorem policy_set_mode_answers (now : Z) (m : string) (w : World) :
  (forall mo, modes (policy (engine w)) !! m = Some mo ->
     policy_set_mode now m w
     = (Ok200 (mkModeChangeReply m (allowed_tools mo)),
        snd (set_mode now m w)) /\
     get_current_mode (engine (snd (policy_set_mode now m w))) = m) /\
  (modes (policy (engine w)) !! m = None ->
     policy_set_mode now m w
     = (HTTPException 400 ("Invalid mode: " +:+ m), w)) /\
  (forall x, fst (policy_set_mode now m w) <> Unhandled x).
Proof.
  unfold policy_set_mode, set_mode, get_allowed_tools.
  destruct (modes (policy (engine w)) !! m) as [mo|] eqn:Hm; simpl.
  - rewrite Hm. simpl. split; [|split].
    + intros mo' Hmo. injection Hmo as <-. split; reflexivity.
    + discriminate.
    + intros x. discriminate.
  - split; [|split].
    + intros mo' Hmo. discriminate Hmo.
    + reflexivity.
    + intros x. discriminate.
Qed.

Lemma policy_set_mode_answers_witness :
  modes (policy (engine (init ops_policy))) !! "EMERGENCY"
    = Some emergency_mode /\
  fst (policy_set_mode 0 "EMERGENCY" (init ops_policy))
    = Ok200 (mkModeChangeReply "EMERGENCY"
               ["get_service_status"; "restart_service"]) /\
  modes (policy (engine (init ops_policy))) !! "DEBUG" = None /\
  policy_set_mode 0 "DEBUG" (init ops_policy)
    = (HTTPException 400 "Invalid mode: DEBUG", init ops_policy).
Proof.
  assert (Hm : modes (policy (engine (init ops_policy))) !! "EMERGENCY"
               = Some emergency_mode) by (vm_compute; reflexivity).
  assert (Hn : modes (policy (engine (init ops_policy))) !! "DEBUG" = None)
    by (vm_compute; reflexivity).
  destruct (policy_set_mode_answers 0 "EMERGENCY" (init ops_policy))
    as (Hok & _ & _).
  destruct (policy_set_mode_answers 0 "DEBUG" (init ops_policy))
    as (_ & Herr & _).
  destruct (Hok _ Hm) as [Heq _].
  split; [exact Hm|]. split; [rewrite Heq; reflexivity|].
  split; [exact Hn | exact (Herr Hn)].
Defined.

(** X13. [/policy/revoke-temporary] always answers 200, and afterwards the
    permission is valid neither at that time nor later.  When a grant was
    valid, the engine is as after [revoke_temporary_emergency] and the mode
    reported is [base_mode]; when none was valid the engine is untouched, so
    a grant past its expiry time whose timer has not run keeps its elevated
    mode. *)
Theorem revoke_temporary_permission_answers (format_1f : Z -> string)
    (now : Z) (w : World) :
  let tp := temp_permission (engine w) in
  let r := revoke_temporary_permission format_1f now w in
  (exists body, fst r = Ok200 body) /\
  (forall now', now <= now' ->
     is_valid now' (temp_permission (engine (snd r))) = false) /\
  (is_valid now tp = true ->
     r = (Ok200 (mkRevokeReply "Temporary permission revoked"
                   (Some (base_mode (engine w)))),
          snd (revoke_temporary_emergency w)) /\
     current_mode (engine (snd r)) = base_mode (engine w)) /\
  (is_valid now tp = false ->
     r = (Ok200 (mkRevokeReply "No active temporary permission to revoke"
                   None), w)).
Proof.
  intros tp r. subst r.
  unfold revoke_temporary_permission, get_temporary_status. simpl.
  fold tp. destruct (is_valid now tp) eqn:Hv; simpl.
  - split; [eexists; reflexivity|]. split; [|split].
    + intros now' _. reflexivity.
    + intros _. split; reflexivity.
    + discriminate.
  - split; [eexists; reflexivity|]. split; [|split].
    + intros now' Hle. change (is_valid now' tp = false).
      destruct (is_valid now' tp) eqn:Hv'; [|reflexivity].
      unfold is_valid in *. apply andb_prop in Hv' as [Ha Hlt].
      rewrite Ha in Hv. simpl in Hv.
      destruct (expiry_time tp) as [e|]; [|discriminate].
      apply Z.ltb_lt in Hlt. apply Z.ltb_ge in Hv. lia.
    + discriminate.
    + intros _. reflexivity.
Qed.

Lemma revoke_temporary_permission_answers_witness :
  let w := snd (grant_temporary_emergency 0 10 (init ops_policy)) in
  is_valid (seconds 10) (temp_permission (engine w)) = false /\
  revoke_temporary_permission plain_1f (seconds 10) w
  = (Ok200 (mkRevokeReply "No active temporary permission to revoke" None),
     w) /\
  current_mode (engine w) = "EMERGENCY" /\
  is_valid 1 (temp_permission (engine w)) = true /\
  current_mode (engine (snd (revoke_temporary_permission plain_1f 1 w)))
  = base_mode (engine w).
Proof.
  intros w.
  assert (Hl : is_valid (seconds 10) (temp_permission (engine w)) = false)
    by reflexivity.
  assert (Hv : is_valid 1 (temp_permission (engine w)) = true)
    by reflexivity.
  destruct (revoke_temporary_permission_answers plain_1f (seconds 10) w)
    as (_ & _ & _ & Hnone).
  destruct (revoke_temporary_permission_answers plain_1f 1 w)
    as (_ & _ & Hsome & _).
  split; [exact Hl|]. split; [exact (Hnone Hl)|].
  split; [reflexivity|]. split; [exact Hv|].
  exact (proj2 (Hsome Hv)).
Defined.

(** X14. [/policy/grant-temporary] with a duration [d] in 1..300 answers 200
    and leaves the engine as after [grant_temporary_emergency(d)]: in
    "EMERGENCY", with the previous mode as [base_mode], [d] seconds left, and
    a permission valid exactly at the times before [now + d] seconds.  A
    duration outside 1..300 is answered 422 and the engine is untouched. *)
Theorem grant_temporary_permission_answers (now d : Z) (w : World) :
  let r := grant_temporary_permission now d w in
  let tp' := temp_permission (engine (snd r)) in
  (temporary_permission_request d = true ->
     r = (Http200, snd (grant_temporary_emergency now d w)) /\
     current_mode (engine (snd r)) = "EMERGENCY" /\
     base_mode (engine (snd r)) = current_mode (engine w) /\
     remaining_time now tp' = Some (seconds d) /\
     forall now', is_valid now' tp' = true <-> now' < now + seconds d) /\
  (temporary_permission_request d = false -> r = (Http422, w)).
Proof.
  intros r tp'. subst tp' r. unfold grant_temporary_permission.
  split.
  - intros Hreq. rewrite Hreq. simpl.
    unfold temporary_permission_request in Hreq.
    apply andb_prop in Hreq as [Hlo _]. apply Z.leb_le in Hlo.
    split; [reflexivity|]. split; [reflexivity|]. split; [reflexivity|].
    split.
    + unfold remaining_time. simpl. f_equal. unfold seconds. lia.
    + intros now'. unfold is_valid. simpl. apply Z.ltb_lt.
  - intros ->. reflexivity.
Qed.

Lemma grant_temporary_permission_answers_witness :
  temporary_permission_request 300 = true /\
  grant_temporary_permission 0 300 (init ops_policy)
  = (Http200, snd (grant_temporary_emergency 0 300 (init ops_policy))) /\
  temporary_permission_request 301 = false /\
  grant_temporary_permission 0 301 (init ops_policy)
  = (Http422, init ops_policy).
Proof.
  assert (Hin : temporary_permission_request 300 = true) by reflexivity.
  assert (Hout : temporary_permission_request 301 = false) by reflexivity.
  destruct (grant_temporary_permission_answers 0 300 (init ops_policy))
    as [Hok _].
  destruct (grant_temporary_permission_answers 0 301 (init ops_policy))
    as [_ Herr].
  split; [exact Hin|]. split; [exact (proj1 (Hok Hin))|].
  split; [exact Hout | exact (Herr Hout)].
Defined.
